(** * Extract ISBN: the page-range strategy of [pdf.py], the option store of
    [config.py] and the identifier scanner they drive.

    The development is a shallow embedding of the Python sources.  Python
    [str] values are lists of Unicode code points, [bytes] values are lists
    of [Byte.byte], dictionaries are [gmap]s.  The external tools (pdfinfo,
    pdftohtml) are described by a [world] record holding what each run
    delivers; the functions of [pdf.py] run in a state-and-exception monad
    that records every tool invocation. *)

From Stdlib Require Import ZArith NArith Strings.Byte Strings.Ascii Strings.String.
From stdpp Require Import base numbers option list gmap strings.

Set Default Proof Using "Type".
Set Warnings "-register-all".
Local Open Scope Z_scope.

(** ** Python values and the built-in operations the sources use *)

Module Py.

(** A [str] is a sequence of code points. *)
Abbreviation str := (list N).
Abbreviation bytes := (list byte).

(** A literal of the source, written as an ASCII string. *)
Definition u (s : string) : str :=
  N_of_ascii <$> list_ascii_of_string s.

(** A [bytes] literal. *)
Definition b (s : string) : bytes :=
  byte_of_ascii <$> list_ascii_of_string s.

Definition N_is (a b : N) : bool := (a =? b)%N.

(** Truth value of a [str]: non-empty. *)
Definition truthy {A} (s : list A) : bool :=
  match s with [] => false | _ => true end.

(** [str.isspace] for one character. *)
Definition isspace (c : N) : bool :=
  ((9 <=? c) && (c <=? 13) || (28 <=? c) && (c <=? 32)
   || N_is c 133 || N_is c 160 || N_is c 5760
   || (8192 <=? c) && (c <=? 8202)
   || N_is c 8232 || N_is c 8233 || N_is c 8239 || N_is c 8287
   || N_is c 12288)%N.

Fixpoint lstrip_by {A} (ws : A → bool) (s : list A) : list A :=
  match s with
  | c :: r => if ws c then lstrip_by ws r else s
  | [] => []
  end.

(** The first element, if any, is not white space. *)
Definition clean_head {A} (ws : A → bool) (s : list A) : Prop :=
  match s with
  | c :: _ => ws c = false
  | [] => True
  end.

Definition strip_by {A} (ws : A → bool) (s : list A) : list A :=
  reverse (lstrip_by ws (reverse (lstrip_by ws s))).

(** [s.strip()] on a [str]. *)
Definition strip (s : str) : str := strip_by isspace s.

(** [b.strip()] on [bytes]: ASCII white space only. *)
Definition bytes_isspace (b : byte) : bool :=
  let c := Byte.to_N b in ((9 <=? c) && (c <=? 13) || N_is c 32)%N.

Definition bytes_strip (b : bytes) : bytes := strip_by bytes_isspace b.

(** [c in s] for a one-character [c]. *)
Definition contains (c : N) (s : str) : bool := existsb (N_is c) s.

(** [s.partition(c)] for a one-character separator: the part before the
    first occurrence, the separator found (empty when absent) and the
    part after it. *)
Fixpoint partition (c : N) (s : str) : str * str * str :=
  match s with
  | [] => ([], [], [])
  | x :: r =>
      if N_is x c then ([], [c], r)
      else let '(h, sep, t) := partition c r in (x :: h, sep, t)
  end.

(** [s.replace(c, '')] for a one-character [c]. *)
Definition remove_char (c : N) (s : str) : str :=
  filter (λ x, x ≠ c) s.

(** [s.split(c)] for a one-character separator; never the empty list. *)
Fixpoint split (c : N) (s : str) : list str :=
  match s with
  | [] => [[]]
  | x :: r =>
      if N_is x c then [] :: split c r
      else match split c r with
           | h :: t => (x :: h) :: t
           | [] => [[x]]
           end
  end.

(** Line boundaries of [str.splitlines]. *)
Definition is_linebreak (c : N) : bool :=
  ((10 <=? c) && (c <=? 13) || (28 <=? c) && (c <=? 30)
   || N_is c 133 || N_is c 8232 || N_is c 8233)%N.

Fixpoint splitlines_from (cur : str) (s : str) : list str :=
  match s with
  | [] => if truthy cur then [reverse cur] else []
  | c :: r =>
      if N_is c 13 then
        match r with
        | c' :: r' =>
            if N_is c' 10 then reverse cur :: splitlines_from [] r'
            else reverse cur :: splitlines_from [] r
        | [] => [reverse cur]
        end
      else if is_linebreak c then reverse cur :: splitlines_from [] r
      else splitlines_from (c :: cur) r
  end.

(** [s.splitlines()]. *)
Definition splitlines (s : str) : list str := splitlines_from [] s.

(** [b.decode('utf-8')], strict: [None] stands for [UnicodeDecodeError]. *)
Definition is_cont (b : N) : bool := ((128 <=? b) && (b <? 192))%N.
Definition low6 (b : N) : N := (b - 128)%N.

Fixpoint decode_points (bs : list N) : option str :=
  match bs with
  | [] => Some []
  | b0 :: r0 =>
      if (b0 <? 128)%N then cons b0 <$> decode_points r0
      else if (b0 <? 194)%N then None
      else if (b0 <? 224)%N then
        match r0 with
        | b1 :: r1 =>
            if is_cont b1
            then cons ((b0 - 192) * 64 + low6 b1)%N <$> decode_points r1
            else None
        | _ => None
        end
      else if (b0 <? 240)%N then
        match r0 with
        | b1 :: b2 :: r2 =>
            let cp := ((b0 - 224) * 4096 + low6 b1 * 64 + low6 b2)%N in
            if is_cont b1 && is_cont b2 && (2048 <=? cp)%N
               && negb ((55296 <=? cp) && (cp <=? 57343))%N
            then cons cp <$> decode_points r2
            else None
        | _ => None
        end
      else if (b0 <? 245)%N then
        match r0 with
        | b1 :: b2 :: b3 :: r3 =>
            let cp := ((b0 - 240) * 262144 + low6 b1 * 4096
                       + low6 b2 * 64 + low6 b3)%N in
            if is_cont b1 && is_cont b2 && is_cont b3
               && (65536 <=? cp)%N && (cp <=? 1114111)%N
            then cons cp <$> decode_points r3
            else None
        | _ => None
        end
      else None
  end.

Definition decode_utf8 (b : bytes) : option str :=
  decode_points (Byte.to_N <$> b).

(** [int(s)] is taken as a parameter by the functions that call it.
    [decimal_int] is the instance used in examples: optional sign and
    ASCII decimal digits, white space around them ignored; [None] stands
    for [ValueError].  It is narrower than Python's [int], which also
    accepts underscores between digits and other decimal digits. *)
Definition digit (c : N) : option Z :=
  if ((48 <=? c) && (c <=? 57))%N then Some (Z.of_N c - 48) else None.

Definition decimal_value (ds : list Z) : Z :=
  foldl (λ acc d, 10 * acc + d) 0 ds.

Definition unsigned_int (s : str) : option Z :=
  if truthy s then decimal_value <$> mapM digit s else None.

Definition decimal_int (s : str) : option Z :=
  match strip s with
  | c :: r =>
      if N_is c 45 then Z.opp <$> unsigned_int r
      else if N_is c 43 then unsigned_int r
      else unsigned_int (c :: r)
  | [] => None
  end.

(** [''.join(parts)]. *)
Definition join (parts : list str) : str := concat parts.

(** [x or ''] for an optional text. *)
Definition or_empty (x : option str) : str := default [] x.

End Py.

(** ** [config.py]: the option store *)

Module Config.
Import Py.

Definition STORE_NAME : str := u "Options".
Definition KEY_VALID_ISBN13_PREFIX : str := u "validISBN13Prefix".
Definition KEY_POST_TASK : str := u "postTask".
Definition KEY_WORKER_THRESHOLD : str := u "workerThreshold".
Definition KEY_BATCH_SIZE : str := u "batchSize".

(** The values a JSON-backed store can hold. *)
Inductive value :=
| VNull
| VInt (n : Z)
| VStr (s : str)
| VList (l : list value).

Abbreviation dict := (gmap str value).

Definition DEFAULT_STORE_VALUES : dict :=
  <[KEY_POST_TASK := VStr (u "none")]>
  (<[KEY_VALID_ISBN13_PREFIX := VList [VStr (u "977"); VStr (u "978"); VStr (u "979")]]>
  (<[KEY_WORKER_THRESHOLD := VInt 1]>
  (<[KEY_BATCH_SIZE := VInt 100]> ∅))).

(** [d[key]] on a dictionary literal known to hold [key]; [VNull] is
    never reached for the keys of [DEFAULT_STORE_VALUES]. *)
Definition item (d : dict) (key : str) : value := default VNull (d !! key).

(** [d.get(key, dflt)]. *)
Definition get (d : dict) (key : str) (dflt : value) : value :=
  default dflt (d !! key).

(** calibre's [JSONConfig]: what the preference file holds, and the
    [defaults] consulted for a store that the file lacks. *)
Record JSONConfig := {
  stored : gmap str dict;
  defaults : gmap str dict
}.

(** [plugin_prefs[name]]; [None] stands for [KeyError]. *)
Definition getitem (p : JSONConfig) (name : str) : option dict :=
  match stored p !! name with
  | Some c => Some c
  | None => defaults p !! name
  end.

(** [plugin_prefs[name] = c]. *)
Definition setitem (p : JSONConfig) (name : str) (c : dict) : JSONConfig :=
  {| stored := <[name := c]> (stored p); defaults := defaults p |}.

(** [plugin_prefs = JSONConfig('plugins/Extract ISBN')] followed by
    [plugin_prefs.defaults[STORE_NAME] = DEFAULT_STORE_VALUES], for a
    preference file holding [file]. *)
Definition plugin_prefs (file : gmap str dict) : JSONConfig :=
  {| stored := file; defaults := <[STORE_NAME := DEFAULT_STORE_VALUES]> ∅ |}.

(** The part of the widget that [save_settings] reads. *)
Record ConfigWidget := {
  showCombo_selected_key : str;
  isbn13_ledit_text : str;
  threshold_spin_value : Z;
  batch_spin_value : Z
}.

Definition save_settings (self : ConfigWidget) (prefs : JSONConfig) : JSONConfig :=
  let new_prefs : dict := ∅ in
  let new_prefs := <[KEY_POST_TASK := VStr (showCombo_selected_key self)]> new_prefs in
  let prefixes := remove_char 32%N (isbn13_ledit_text self) in
  let new_prefs := <[KEY_VALID_ISBN13_PREFIX := VList (VStr <$> split 44%N prefixes)]> new_prefs in
  let new_prefs := <[KEY_WORKER_THRESHOLD := VInt (threshold_spin_value self)]> new_prefs in
  let new_prefs := <[KEY_BATCH_SIZE := VInt (batch_spin_value self)]> new_prefs in
  setitem prefs STORE_NAME new_prefs.

(** [c = plugin_prefs[STORE_NAME]] and
    [c.get(KEY_VALID_ISBN13_PREFIX, DEFAULT_STORE_VALUES[KEY_VALID_ISBN13_PREFIX])],
    as [ConfigWidget.__init__] reads the prefixes. *)
Definition read_prefixes (prefs : JSONConfig) : option value :=
  c ← getitem prefs STORE_NAME;
  Some (get c KEY_VALID_ISBN13_PREFIX (item DEFAULT_STORE_VALUES KEY_VALID_ISBN13_PREFIX)).

(** [','.join(parts)] for a one-character separator. *)
Fixpoint join_with (sep : N) (parts : list str) : str :=
  match parts with
  | [] => []
  | [part] => part
  | part :: rest => part ++ sep :: join_with sep rest
  end.

Definition as_str (v : value) : option str :=
  match v with
  | VStr s => Some s
  | _ => None
  end.

(** The items that [','.join(v)] joins: the entries of a list when all
    are [str], the characters of a [str]; [None] stands for [TypeError]. *)
Definition join_items (v : value) : option (list str) :=
  match v with
  | VList l => mapM as_str l
  | VStr s => Some ((λ c, [c]) <$> s)
  | _ => None
  end.

(** The text that [ConfigWidget.__init__] puts in the prefix field:
    [c = plugin_prefs[STORE_NAME]], [prefixes = c.get(...)] and
    [QLineEdit(','.join(prefixes), self)]. *)
Definition init_isbn13_ledit_text (prefs : JSONConfig) : option str :=
  prefixes ← read_prefixes prefs;
  items ← join_items prefixes;
  Some (join_with 44 items).

End Config.

(** ** The identifier scanner

    [pdf.py] imports [BookScanner] from [scan.py] and uses it through four
    operations, collected in [ScannerAPI]; the functions of [pdf.py] are
    stated for any implementation of them. *)

Class ScannerAPI := {
  scanner : Type;
  identifier : Type;
  (** [BookScanner(log)] *)
  BookScanner : scanner;
  (** [scanner.look_for_identifiers_in_text(texts)] *)
  look_for_identifiers_in_text : scanner → list Py.str → scanner;
  (** [scanner.has_identifier()] *)
  has_identifier : scanner → bool;
  (** [scanner.get_isbn_result()] *)
  get_isbn_result : scanner → option identifier
}.

Module Scan.
Import Py.

(** Modelled from the spec: the kind of an identifier (section 3, [kind]);
    [scan.py] is missing. *)
Inductive kind := ISBN10 | ISBN13.

#[export] Instance kind_eq_dec : EqDecision kind.
Proof. solve_decision. Defined.

(** Modelled from the spec: a validated ISBN (section 3, Identifier);
    [scan.py] is missing. *)
Record Identifier := {
  digits : str;
  id_kind : kind;
  raw_span : str
}.

(** Modelled from the spec: the two slots of a scan (section 3,
    ScanState); [scan.py] is missing. *)
Record ScanState := {
  found13 : option Identifier;
  found10 : option Identifier
}.

(** Modelled from the spec: the state at scan start, both slots empty. *)
Definition empty : ScanState := {| found13 := None; found10 := None |}.

(** Modelled from the spec: the separators of section 4.1, steps 1 and 6:
    hyphen, period, en dash, em dash and white space. *)
Definition is_separator (c : N) : bool :=
  N_is c 45 || N_is c 46 || N_is c 8211 || N_is c 8212 || isspace c.

(** Modelled from the spec: step 2, strip the separators of a match. *)
Definition compact (raw : str) : str :=
  filter (λ c, is_separator c = false) raw.

(** Modelled from the spec: the value of a numeric character. *)
Definition digit_value (c : N) : option Z :=
  if ((48 <=? c) && (c <=? 57))%N then Some (Z.of_N c - 48) else None.

(** Modelled from the spec: the value of the check character of an
    ISBN-10, a digit or 'X'/'x' standing for 10. *)
Definition check10_value (c : N) : option Z :=
  if N_is c 88 || N_is c 120 then Some 10 else digit_value c.

(** Modelled from the spec: the digit values of a compact ISBN-10
    candidate, 'X' allowed in the last place only. *)
Fixpoint values10 (cs : str) : option (list Z) :=
  match cs with
  | [] => Some []
  | [c] => d ← check10_value c; Some [d]
  | c :: r => d ← digit_value c; ds ← values10 r; Some (d :: ds)
  end.

(** Modelled from the spec: the digit values of a compact ISBN-13
    candidate. *)
Definition values13 (cs : str) : option (list Z) := mapM digit_value cs.

(** Modelled from the spec: step 3, the sum (10-i)*d_i over i = 0..9,
    computed with the weight of the first digit passed as [w]. *)
Fixpoint weighted_sum10 (w : Z) (ds : list Z) : Z :=
  match ds with
  | [] => 0
  | d :: r => w * d + weighted_sum10 (w - 1) r
  end.

(** Modelled from the spec: step 3, the ISBN-10 rule. *)
Definition isbn10_ok (ds : list Z) : bool :=
  weighted_sum10 10 ds `mod` 11 =? 0.

(** Modelled from the spec: step 3, the sum with the alternating weights
    1, 3, 1, 3, ... *)
Fixpoint weighted_sum13 (odd_place : bool) (ds : list Z) : Z :=
  match ds with
  | [] => 0
  | d :: r => (if odd_place then 1 else 3) * d + weighted_sum13 (negb odd_place) r
  end.

(** Modelled from the spec: step 3, the ISBN-13 rule: the check digit
    computed from the first twelve digits equals the thirteenth. *)
Definition isbn13_ok (ds : list Z) : bool :=
  match ds !! 12%nat with
  | Some check => (10 - weighted_sum13 true (take 12 ds) `mod` 10) `mod` 10 =? check
  | None => false
  end.

(** Modelled from the spec: the normalized check character of an
    ISBN-10, 'X' in upper case. *)
Definition normalize (cs : str) : str :=
  (λ c, if N_is c 120 then 88%N else c) <$> cs.

(** Modelled from the spec: step 4, the three-character prefix belongs
    to the configured set. *)
Definition prefix_ok (valid_prefixes : list str) (cs : str) : bool :=
  bool_decide (take 3 cs ∈ valid_prefixes).

(** Modelled from the spec: steps 2 to 4 on one match: the identifier it
    validates to, or [None] when the candidate is discarded. *)
Definition validate (valid_prefixes : list str) (raw : str) : option Identifier :=
  let cs := compact raw in
  if decide (length cs = 10%nat) then
    ds ← values10 cs;
    if isbn10_ok ds
    then Some {| digits := normalize cs; id_kind := ISBN10; raw_span := raw |}
    else None
  else if decide (length cs = 13%nat) then
    ds ← values13 cs;
    if isbn13_ok ds && prefix_ok valid_prefixes cs
    then Some {| digits := cs; id_kind := ISBN13; raw_span := raw |}
    else None
  else None.

(** Modelled from the spec: step 5, first match wins per kind. *)
Definition record_id (st : ScanState) (i : Identifier) : ScanState :=
  match id_kind i with
  | ISBN13 =>
      match found13 st with
      | None => {| found13 := Some i; found10 := found10 st |}
      | Some _ => st
      end
  | ISBN10 =>
      match found10 st with
      | None => {| found13 := found13 st; found10 := Some i |}
      | Some _ => st
      end
  end.

(** Modelled from the spec: the configuration consumed by the scanner
    (section 6): a set of three-character strings. *)
Definition prefix_entry (v : Config.value) : option str :=
  match v with
  | Config.VStr s => if decide (length s = 3%nat) then Some s else None
  | _ => None
  end.

(** Modelled from the spec: the prefix list a configuration value stands
    for; [None] when the configuration is malformed. *)
Definition well_formed_prefixes (v : Config.value) : option (list str) :=
  match v with
  | Config.VList l => mapM prefix_entry l
  | _ => None
  end.

(** Modelled from the spec: the default prefix set, taken from
    [DEFAULT_STORE_VALUES] of [config.py]. *)
Definition default_prefixes : list str :=
  default [] (well_formed_prefixes
    (Config.item Config.DEFAULT_STORE_VALUES Config.KEY_VALID_ISBN13_PREFIX)).

(** Modelled from the spec: section 4.1, failure semantics: a malformed
    configuration degrades to the default prefixes. *)
Definition effective_prefixes (configured : option Config.value) : list str :=
  match configured ≫= well_formed_prefixes with
  | Some l => l
  | None => default_prefixes
  end.

Section Scanner.
(** Modelled from the spec: step 1, the loose ISBN pattern.  The spec
    does not fix the pattern, so it is a parameter: [locate text] is
    the list, in order of occurrence, of the runs of digit-like
    characters and separators that the pattern matches in [text]. *)
Variable locate : str → list str.

(** The process-wide settings object the scanner is configured from. *)
Variable prefs : Config.JSONConfig.

(** Modelled from the spec: a scanner instance: its configured
    prefixes and its scan state. *)
Record Scanner := {
  valid_isbn13s : list str;
  state : ScanState
}.

(** Modelled from the spec: the scanner at scan start. *)
Definition new : Scanner :=
  {| valid_isbn13s := effective_prefixes (Config.read_prefixes prefs);
     state := empty |}.

(** Modelled from the spec: [feed] on one match. *)
Definition feed_match (valid : list str) (st : ScanState) (raw : str) : ScanState :=
  match validate valid raw with
  | Some i => record_id st i
  | None => st
  end.

(** Modelled from the spec: [feed(text)]. *)
Definition feed (sc : Scanner) (text : str) : Scanner :=
  {| valid_isbn13s := valid_isbn13s sc;
     state := foldl (feed_match (valid_isbn13s sc)) (state sc) (locate text) |}.

(** Modelled from the spec: [feed] once per text chunk. *)
Definition feed_all (sc : Scanner) (texts : list str) : Scanner :=
  foldl feed sc texts.

(** Modelled from the spec: [has_identifier()], true once a valid
    ISBN-13 is found. *)
Definition has_id (sc : Scanner) : bool :=
  bool_decide (is_Some (found13 (state sc))).

(** Modelled from the spec: [result()]: the ISBN-13 if present, else
    the ISBN-10 if present, else none. *)
Definition result (sc : Scanner) : option Identifier :=
  match found13 (state sc) with
  | Some i => Some i
  | None => found10 (state sc)
  end.

(** Modelled from the spec: the identifiers that the matches of a
    sequence of text chunks validate to, in order of occurrence. *)
Definition valid_matches (valid : list str) (texts : list str) : list Identifier :=
  omap (validate valid) (concat (locate <$> texts)).

(** Modelled from the spec: the first identifier of a kind. *)
Definition first_of (k : kind) (ids : list Identifier) : option Identifier :=
  head (filter (λ i, id_kind i = k) ids).

(** Modelled from the spec: the scanner as [pdf.py] uses it. *)
#[local] Instance api : ScannerAPI := {|
  scanner := Scanner;
  identifier := Identifier;
  BookScanner := new;
  look_for_identifiers_in_text := feed_all;
  has_identifier := has_id;
  get_isbn_result := result
|}.
End Scanner.

(** Modelled from the spec: a digit-like character of step 1. *)
Definition digit_like (c : N) : bool :=
  ((48 <=? c) && (c <=? 57))%N || N_is c 88 || N_is c 120.

(** Modelled from the spec: the maximal runs of digit-like characters and
    separators of a text; [cur] is the run being read, last character
    first. *)
Fixpoint runs_from (cur : str) (s : str) : list str :=
  match s with
  | [] => if truthy cur then [reverse cur] else []
  | c :: r =>
      if digit_like c || is_separator c then runs_from (c :: cur) r
      else if truthy cur then reverse cur :: runs_from [] r
      else runs_from [] r
  end.

(** A simple pattern, used in the examples only: the maximal runs of
    digit-like characters and separators, with the separators at both ends
    removed.  It knows no literal prefix, so a number that directly follows
    other digits or separators is glued to them; the theorems about the
    scanner hold for every pattern and do not use it. *)
Definition simple_locate (text : str) : list str :=
  filter (λ r, truthy r = true) (strip_by is_separator <$> runs_from [] text).
End Scan.

(** ** [pdf.py]: page count, text extraction and the page-range strategy *)

Module Pdf.
Import Py.

(** The module-level names that [get_isbn] reads when it runs. *)
Record globals := {
  FRONT_PAGES : Z;
  BACK_PAGES : Z
}.

(** [FRONT_PAGES = 25] and [BACK_PAGES = 15], as the module binds them. *)
Definition module_globals : globals :=
  {| FRONT_PAGES := 25; BACK_PAGES := 15 |}.

Definition ENOENT : Z := 2.
Definition EINTR : Z := 4.

(** The argument of a [ConversionError]. *)
Inductive error_arg :=
| Message (text : string)
| Output (out : bytes).

Inductive exn :=
| ConversionError (arg : error_arg)
| DRMError
| OSError (errno : Z)
| CalledProcessError (returncode : Z)
| UnboundLocalError (name : string)
| ValueError
| ParseError (cls : string).

Inductive result (A : Type) :=
| Return (a : A)
| Raise (e : exn).
Arguments Return {A} a.
Arguments Raise {A} e.

(** *** The external tools *)

(** One run of pdfinfo. *)
Record pdfinfo_run := {
  pdfinfo_spawn_error : option Z;
  pdfinfo_returncode : Z;
  pdfinfo_stdout : bytes
}.

(** [index.xml]: its size and what reading it, parsing it with lxml and
    walking [tree.iter('text')] gives: the [.text] of each element. *)
Record IndexFile := {
  st_size : Z;
  text_elements : result (list (option str))
}.

(** One run of pdftohtml: the error of [popen] if the process cannot be
    started, the errors raised by the successive [p.wait()] calls before
    the one that returns, the return code, the content of the log file
    and the [index.xml] left in the output directory. *)
Record pdftohtml_run := {
  popen_error : option Z;
  wait_errors : list Z;
  returncode : Z;
  logfile : bytes;
  index_xml : option IndexFile
}.

Record world := {
  pdfinfo : pdfinfo_run;
  pdftohtml : option Z → option Z → pdftohtml_run
}.

(** *** State and the monad *)

Inductive call :=
| CallPdfinfo
| CallPdftohtml (first last : option Z).

Inductive log_msg :=
| PdfinfoReturnCode (rc : Z)
| NoUtf8Data
| PageCount (pages : str)
| PdftohtmlLog
| Raw (out : bytes).

Inductive log_record :=
| LogError (m : log_msg)
| LogInfo (m : log_msg)
| LogPlain (m : log_msg).

Record state := {
  index_file : option IndexFile;
  log : list log_record;
  stdout : list (list log_record);
  calls : list call
}.

Definition M (A : Type) : Type := state → result A * state.

#[export] Instance M_ret : MRet M := λ A a s, (Return a, s).
#[export] Instance M_bind : MBind M := λ A B f m s,
  match m s with
  | (Return a, s') => f a s'
  | (Raise e, s') => (Raise e, s')
  end.

Definition raise {A} (e : exn) : M A := λ s, (Raise e, s).

Definition lift {A} (r : result A) : M A := λ s, (r, s).

(** [if cond: body] for a statement. *)
Definition when (cond : bool) (body : M unit) : M unit :=
  if cond then body else mret ().

(** [try: body finally: final]. *)
Definition try_finally {A} (body : M A) (final : M unit) : M A := λ s,
  let '(r, s1) := body s in
  match final s1 with
  | (Return _, s2) => (r, s2)
  | (Raise e, s2) => (Raise e, s2)
  end.

(** [try: body except CalledProcessError as e: handler e], followed by
    [rest] when the body completes; the handler returns from the
    function. *)
Definition try_except {A B} (body : M A) (handler : Z → M B) (rest : A → M B) : M B :=
  λ s,
  match body s with
  | (Return a, s') => rest a s'
  | (Raise (CalledProcessError rc), s') => handler rc s'
  | (Raise e, s') => (Raise e, s')
  end.

Definition record_call (c : call) : M unit := λ s,
  (Return (),
   {| index_file := index_file s; log := log s; stdout := stdout s;
      calls := calls s ++ [c] |}).

Definition write_log (r : log_record) : M unit := λ s,
  (Return (),
   {| index_file := index_file s; log := log s ++ [r]; stdout := stdout s;
      calls := calls s |}).

(** [log = GUILog()]. *)
Definition new_log : M unit := λ s,
  (Return (),
   {| index_file := index_file s; log := []; stdout := stdout s;
      calls := calls s |}).

(** [print(log.html)]. *)
Definition print_log : M unit := λ s,
  (Return (),
   {| index_file := index_file s; log := log s;
      stdout := stdout s ++ [log s]; calls := calls s |}).

Definition set_index_file (f : option IndexFile) : M unit := λ s,
  (Return (),
   {| index_file := f; log := log s; stdout := stdout s; calls := calls s |}).

Definition get_index_file : M (option IndexFile) := λ s,
  (Return (index_file s), s).

(** The pdftohtml invocations among the recorded calls. *)
Definition extractions (cs : list call) : list (option Z * option Z) :=
  omap (λ c, match c with
             | CallPdftohtml first last => Some (first, last)
             | CallPdfinfo => None
             end) cs.

Section Functions.
(** The built-in [int] on a [str]; [None] stands for [ValueError]. *)
Variable int : str → option Z.
Context `{ScannerAPI}.
Variable w : world.

(** [subprocess.check_output([pdfinfo, '-enc', 'UTF-8', pdf_name])]. *)
Definition check_output : M bytes :=
  record_call CallPdfinfo;;
  match pdfinfo_spawn_error (pdfinfo w) with
  | Some errno => raise (OSError errno)
  | None =>
      if pdfinfo_returncode (pdfinfo w) =? 0
      then mret (pdfinfo_stdout (pdfinfo w))
      else raise (CalledProcessError (pdfinfo_returncode (pdfinfo w)))
  end.

(** The body of the [for line in raw.splitlines()] loop. *)
Definition add_field (ans : gmap str str) (line : str) : gmap str str :=
  if negb (contains 58 line) then ans
  else
    let '(field, _, val) := partition 58 line in
    let val := strip val in
    if truthy field && truthy val then <[field := strip val]> ans
    else ans.

(** The dictionary [ans] after the loop. *)
Definition info_dict (raw : str) : gmap str str :=
  foldl add_field ∅ (splitlines raw).

(** [get_page_count(log, output_dir, pdf_name)]. *)
Definition get_page_count : M (option Z) :=
  try_except check_output
    (λ rc, write_log (LogError (PdfinfoReturnCode rc));; mret None)
    (λ raw,
      match decode_utf8 raw with
      | None => write_log (LogInfo NoUtf8Data);; mret None
      | Some raw =>
          let ans := info_dict raw in
          match ans !! u "Pages" with
          | Some pages =>
              write_log (LogInfo (PageCount pages));;
              match int pages with
              | Some n => mret (Some n)
              | None => raise ValueError
              end
          | None => mret None
          end
      end).

(** The [while True] loop around [p.wait()]. *)
Fixpoint wait (errors : list Z) (ret : Z) : result Z :=
  match errors with
  | [] => Return ret
  | errno :: rest =>
      if errno =? EINTR then wait rest ret else Raise (OSError errno)
  end.

(** [call_pdftohtml(log, output_dir, pdf_name, first, last)]: a stale
    [index.xml] is removed, pdftohtml is started with the page range and
    waited for, and the [text] elements of the [index.xml] it wrote are
    joined. *)
Definition call_pdftohtml (first last : option Z) : M str :=
  let run := pdftohtml w first last in
  present ← get_index_file;
  when (bool_decide (is_Some present)) (set_index_file None);;
  record_call (CallPdftohtml first last);;
  match popen_error run with
  | Some errno =>
      if errno =? ENOENT
      then raise (ConversionError
             (Message "Could not find pdftohtml, check it is in your PATH"))
      else raise (OSError errno)
  | None =>
      ret ← lift (wait (wait_errors run) (returncode run));
      set_index_file (index_xml run);;
      let out := bytes_strip (logfile run) in
      if negb (ret =? 0) then raise (ConversionError (Output out))
      else
        when (truthy out)
          (write_log (LogPlain PdftohtmlLog);; write_log (LogPlain (Raw out)));;
        index ← get_index_file;
        match index with
        | None => raise DRMError
        | Some f =>
            if st_size f <? 100 then raise DRMError
            else
              texts ← lift (text_elements f);
              mret (join (or_empty <$> texts))
        end
  end.

(** [get_isbn(output_dir, pdf_name, log)]; [log_given] tells whether a
    log was passed.  [bound] is the local variable [scanner] after the
    [if total_pages is not None] statement: [None] when no assignment to
    it has run, in which case reading it raises [UnboundLocalError]. *)
Definition get_isbn (g : globals) (log_given : bool) : M (option identifier) :=
  is_running_on_fork ←
    (if log_given then mret false else new_log;; mret true);
  try_finally
    (total_pages ← get_page_count;
     bound ←
       match total_pages with
       | Some total_pages =>
           let scanner := BookScanner in
           if total_pages <=? FRONT_PAGES g + BACK_PAGES g then
             text ← call_pdftohtml None None;
             mret (Some (look_for_identifiers_in_text scanner [text]))
           else
             text ← call_pdftohtml (Some 1) (Some (FRONT_PAGES g));
             let scanner := look_for_identifiers_in_text scanner [text] in
             if negb (has_identifier scanner) then
               text ← call_pdftohtml (Some (total_pages - BACK_PAGES g))
                                     (Some total_pages);
               mret (Some (look_for_identifiers_in_text scanner [text]))
             else mret (Some scanner)
       | None => mret None
       end;
     match bound with
     | Some scanner => mret (get_isbn_result scanner)
     | None => raise (UnboundLocalError "scanner")
     end)
    (when is_running_on_fork print_log).
End Functions.

(** The state before anything ran. *)
Definition initial : state :=
  {| index_file := None; log := []; stdout := []; calls := [] |}.

(** What a [call_pdftohtml] for a page range delivers in a world. *)
Definition extraction_outcome (w : world) (first last : option Z) : result str :=
  (call_pdftohtml w first last initial).1.

(** What [get_page_count] delivers in a world. *)
Definition page_count_outcome (int : str → option Z) (w : world) : result (option Z) :=
  (get_page_count int w initial).1.

(** A computation only adds calls and log records to the state: started
    in any state it delivers what it delivers when started in [initial],
    the calls and log records of that run are appended to those the state
    already holds, and nothing is printed. *)
Definition appends {A} (m : M A) : Prop :=
  ∀ s, (m s).1 = (m initial).1
       ∧ calls (m s).2 = calls s ++ calls (m initial).2
       ∧ log (m s).2 = log s ++ log (m initial).2
       ∧ stdout (m s).2 = stdout s.
End Pdf.

(** ** Concrete worlds *)

Module Worlds.
Import Py Pdf.

Definition LF : string := String (ascii_of_nat 10) EmptyString.

(** pdfinfo printing an information table. *)
Definition pdfinfo_prints (text : string) : pdfinfo_run :=
  {| pdfinfo_spawn_error := None; pdfinfo_returncode := 0;
     pdfinfo_stdout := b text |}.

Definition pdfinfo_fails (rc : Z) : pdfinfo_run :=
  {| pdfinfo_spawn_error := None; pdfinfo_returncode := rc;
     pdfinfo_stdout := [] |}.

Definition info (pages : string) : string :=
  ("Title:          A book" ++ LF ++ "Pages:          " ++ pages ++ LF
   ++ "Encrypted:      no" ++ LF)%string.

(** A pdftohtml run that writes the text of the pages. *)
Definition run_text (text : str) : pdftohtml_run :=
  {| popen_error := None; wait_errors := []; returncode := 0; logfile := [];
     index_xml := Some {| st_size := 4096;
                          text_elements := Return [Some text; None] |} |}.

(** A pdftohtml run that exits with a return code and leaves no file. *)
Definition run_exit (rc : Z) (out : string) : pdftohtml_run :=
  {| popen_error := None; wait_errors := [EINTR]; returncode := rc;
     logfile := b out; index_xml := None |}.

(** pdftohtml cannot be started. *)
Definition run_missing : pdftohtml_run :=
  {| popen_error := Some ENOENT; wait_errors := []; returncode := 0;
     logfile := []; index_xml := None |}.

(** A run that succeeds and leaves a file of [size] bytes. *)
Definition run_small (size : Z) : pdftohtml_run :=
  {| popen_error := None; wait_errors := []; returncode := 0; logfile := [];
     index_xml := Some {| st_size := size; text_elements := Return [] |} |}.

Definition front_text : str := u "Copyright 2018. ISBN-13: 978-0-13-468599-1 Printed".
Definition back_text : str := u "Index. ISBN 0-306-40615-2 end".
Definition plain_text : str := u "No identifier on these pages".

(** A document of [pages] pages whose first pages read [front], whose
    last pages read [back] and whose whole text is [front] then [back]. *)
Definition document (pages : string) (front back : str) : world :=
  {| pdfinfo := pdfinfo_prints (info pages);
     pdftohtml := λ first last,
       match first with
       | None => run_text (front ++ back)
       | Some f => if f =? 1 then run_text front else run_text back
       end |}.

(** A document for which pdfinfo exits with return code 1. *)
Definition unreadable : world :=
  {| pdfinfo := pdfinfo_fails 1; pdftohtml := λ _ _, run_text plain_text |}.

(** A document of [pages] pages that pdftohtml cannot convert. *)
Definition protected (pages : string) : world :=
  {| pdfinfo := pdfinfo_prints (info pages);
     pdftohtml := λ _ _, run_small 42 |}.

(** A world in which every pdftohtml run is [r]. *)
Definition converter (r : pdftohtml_run) : world :=
  {| pdfinfo := pdfinfo_prints (info "30"); pdftohtml := λ _ _, r |}.

(** A world in which pdfinfo behaves as [r]. *)
Definition inspector (r : pdfinfo_run) : world :=
  {| pdfinfo := r; pdftohtml := λ _ _, run_text plain_text |}.

(** Output that is not UTF-8. *)
Definition pdfinfo_latin : pdfinfo_run :=
  {| pdfinfo_spawn_error := None; pdfinfo_returncode := 0;
     pdfinfo_stdout := [xff; x41]%byte |}.

(** Narrow windows, as a test would bind them. *)
Definition narrow : globals := {| FRONT_PAGES := 2; BACK_PAGES := 3 |}.

Definition both_text : str :=
  u "ISBN 0-306-40615-2 (paper), ISBN-13: 978-0-13-468599-1 (cloth)".

(** A 13-digit run with prefix 123 whose check digit is right. *)
Definition run_123 : str := u "1234567890128".



(** The scanner configured from an empty preference file. *)
Definition default_scanner : ScannerAPI :=
  Scan.api Scan.simple_locate (Config.plugin_prefs ∅).

(** pdfinfo is not installed. *)
Definition no_pdfinfo : world :=
  {| pdfinfo := {| pdfinfo_spawn_error := Some ENOENT; pdfinfo_returncode := 0;
                   pdfinfo_stdout := [] |};
     pdftohtml := λ _ _, run_text plain_text |}.

(** A run of pdftohtml whose wait is interrupted twice. *)
Definition run_interrupted (text : str) : pdftohtml_run :=
  {| popen_error := None; wait_errors := [EINTR; EINTR]; returncode := 0;
     logfile := []; index_xml := index_xml (run_text text) |}.

(** pdftohtml may not be executed (EACCES). *)
Definition run_forbidden : pdftohtml_run :=
  {| popen_error := Some 13; wait_errors := []; returncode := 0;
     logfile := []; index_xml := None |}.

(** The wait for pdftohtml fails with ECHILD after an interruption. *)
Definition run_lost : pdftohtml_run :=
  {| popen_error := None; wait_errors := [EINTR; 10]; returncode := 0;
     logfile := []; index_xml := None |}.

(** A run that succeeds and writes a warning to its log file. *)
Definition run_chatty (text : str) : pdftohtml_run :=
  {| popen_error := None; wait_errors := []; returncode := 0;
     logfile := b " Syntax Warning: bad font "; index_xml := index_xml (run_text text) |}.

(** Preferences holding an options store with a key that [save_settings]
    does not write, and a store under another name. *)
Definition prefs_legacy : Config.JSONConfig :=
  Config.plugin_prefs
    (<[Config.STORE_NAME := <[u "legacy" := Config.VInt 1]> ∅]>
     (<[u "Other" := <[u "kept" := Config.VInt 2]> ∅]> ∅)).

(** The widget showing the default prefixes. *)
Definition widget_defaults : Config.ConfigWidget :=
  {| Config.showCombo_selected_key := u "updated";
     Config.isbn13_ledit_text := u "977,978,979";
     Config.threshold_spin_value := 3;
     Config.batch_spin_value := 50 |}.
End Worlds.

(** ** [dialogs.py]: queueing the selected books *)

Module Dialogs.
Import Py.

(** [IndexError], or an exception of any other class. *)
Inductive error :=
| IndexError
| Failure (cls : string).

Inductive outcome (A : Type) :=
| Done (a : A)
| Raised (e : error).
Arguments Done {A} a.
Arguments Raised {A} e.

(** The fields of [mi] that [do_book] reads; [formats] may be [None]. *)
Record Metadata := {
  title : str;
  formats : option (list str);
  last_modified : Z;
  isbn : option str
}.

(** The collaborators of the dialog: the database, calibre's
    [sort_formats_by_preference] and [prefs['input_format_order']]. *)
Record library := {
  get_metadata : Z → outcome Metadata;
  format_abspath : Z → str → outcome (option str);
  sort_formats_by_preference : list str → list str → list str;
  input_map : list str
}.

(** An entry of [books_to_scan]. *)
Record queued_book := {
  book_id : Z;
  book_title : str;
  book_last_modified : Z;
  book_isbn : option str;
  paths_for_formats : list (str * option str)
}.

(** What the dialog does to its window and its surroundings;
    [SetLabelText title] stands for [setLabelText(_('Queueing ')+title)]. *)
Inductive effect :=
| SetLabelText (title : str)
| SetValue (n : nat)
| PrintExc
| Hide
| WarningDialog
| Queue (books : list queued_book) (failed no_format : list (Z * str)).

Record dialog := {
  book_ids : list Z;
  gui : bool;
  i : nat;
  failed_ids : list (Z * str);
  no_format_ids : list (Z * str);
  books_to_scan : list queued_book;
  effects : list effect
}.

(** The dialog as [__init__] leaves it before the first [do_book]. *)
Definition init (gui_given : bool) (ids : list Z) : dialog :=
  {| book_ids := ids; gui := gui_given; i := 0; failed_ids := [];
     no_format_ids := []; books_to_scan := []; effects := [] |}.

Definition emit (e : effect) (d : dialog) : dialog :=
  {| book_ids := book_ids d; gui := gui d; i := i d; failed_ids := failed_ids d;
     no_format_ids := no_format_ids d; books_to_scan := books_to_scan d;
     effects := effects d ++ [e] |}.

(** [self.i += 1]. *)
Definition advance (d : dialog) : dialog :=
  {| book_ids := book_ids d; gui := gui d; i := S (i d); failed_ids := failed_ids d;
     no_format_ids := no_format_ids d; books_to_scan := books_to_scan d;
     effects := effects d |}.

(** [self.failed_ids.append(entry)]. *)
Definition append_failed (entry : Z * str) (d : dialog) : dialog :=
  {| book_ids := book_ids d; gui := gui d; i := i d;
     failed_ids := failed_ids d ++ [entry];
     no_format_ids := no_format_ids d; books_to_scan := books_to_scan d;
     effects := effects d |}.

(** [self.no_format_ids.append(entry)]. *)
Definition append_no_format (entry : Z * str) (d : dialog) : dialog :=
  {| book_ids := book_ids d; gui := gui d; i := i d; failed_ids := failed_ids d;
     no_format_ids := no_format_ids d ++ [entry];
     books_to_scan := books_to_scan d; effects := effects d |}.

(** [self.books_to_scan.append(book)]. *)
Definition append_book (book : queued_book) (d : dialog) : dialog :=
  {| book_ids := book_ids d; gui := gui d; i := i d; failed_ids := failed_ids d;
     no_format_ids := no_format_ids d;
     books_to_scan := books_to_scan d ++ [book]; effects := effects d |}.

(** [self.gui = None]. *)
Definition clear_gui (d : dialog) : dialog :=
  {| book_ids := book_ids d; gui := false; i := i d; failed_ids := failed_ids d;
     no_format_ids := no_format_ids d; books_to_scan := books_to_scan d;
     effects := effects d |}.

Section Library.
Variable lib : library.

(** The loop that fills [paths_for_formats]. *)
Fixpoint paths_for (id : Z) (fs : list str) : outcome (list (str * option str)) :=
  match fs with
  | [] => Done []
  | f :: rest =>
      match format_abspath lib id f with
      | Raised e => Raised e
      | Done path =>
          match paths_for id rest with
          | Raised e => Raised e
          | Done paths => Done ((f, path) :: paths)
          end
      end
  end.

(** The [except:] clause of [do_book]. *)
Definition on_exception (id : Z) (title : str) (d : dialog) : dialog :=
  append_failed (id, title) (emit PrintExc d).

Definition do_queue (d : dialog) : dialog :=
  if negb (gui d) then d
  else
    let d := emit Hide d in
    let d := if bool_decide (books_to_scan d = []) then emit WarningDialog d else d in
    let d := clear_gui d in
    if truthy (books_to_scan d)
    then emit (Queue (books_to_scan d) (failed_ids d) (no_format_ids d)) d
    else d.

(** [do_book] up to its last statement: the book at [self.i] is examined
    and recorded. *)
Definition examine_book (d : dialog) : outcome dialog :=
  match book_ids d !! i d with
  | None => Raised IndexError
  | Some id =>
      let d := advance d in
      match get_metadata lib id with
      | Raised _ => Done (on_exception id [] d)
      | Done mi =>
          if negb (truthy (default [] (formats mi))) then
            let d := append_failed (id, title mi) d in
            let d := append_no_format (id, title mi) d in
            Done (emit (SetValue (i d)) d)
          else
            let sorted_formats :=
              sort_formats_by_preference lib (default [] (formats mi)) (input_map lib) in
            match paths_for id sorted_formats with
            | Raised _ => Done (on_exception id (title mi) d)
            | Done paths =>
                let d := emit (SetLabelText (title mi)) d in
                let d := append_book
                           {| book_id := id; book_title := title mi;
                              book_last_modified := last_modified mi;
                              book_isbn := isbn mi; paths_for_formats := paths |} d in
                Done (emit (SetValue (i d)) d)
            end
      end
  end.

(** [do_book], rescheduled by [QTimer.singleShot] until the last book is
    done; [fuel] bounds the number of timer shots. *)
Fixpoint do_book (fuel : nat) (d : dialog) : option (outcome dialog) :=
  match fuel with
  | O => None
  | S fuel =>
      match examine_book d with
      | Raised e => Some (Raised e)
      | Done d =>
          if bool_decide (length (book_ids d) ≤ i d)%nat
          then Some (Done (do_queue d))
          else do_book fuel d
      end
  end.

(** What becomes of one book: it is queued, or it fails with the title
    recorded for it, for want of a format or because of an exception. *)
Inductive verdict :=
| Queued (book : queued_book)
| NoFormat (title : str)
| Failed (title : str).

Definition verdict_of (id : Z) : verdict :=
  match get_metadata lib id with
  | Raised _ => Failed []
  | Done mi =>
      if negb (truthy (default [] (formats mi))) then NoFormat (title mi)
      else
        match paths_for id (sort_formats_by_preference lib (default [] (formats mi))
                              (input_map lib)) with
        | Raised _ => Failed (title mi)
        | Done paths =>
            Queued {| book_id := id; book_title := title mi;
                      book_last_modified := last_modified mi;
                      book_isbn := isbn mi; paths_for_formats := paths |}
        end
  end.

Definition queued_of (id : Z) : option queued_book :=
  match verdict_of id with
  | Queued book => Some book
  | _ => None
  end.

Definition failed_of (id : Z) : option (Z * str) :=
  match verdict_of id with
  | Queued _ => None
  | NoFormat title | Failed title => Some (id, title)
  end.

Definition no_format_of (id : Z) : option (Z * str) :=
  match verdict_of id with
  | NoFormat title => Some (id, title)
  | _ => None
  end.
End Library.

(** The effects other than those on the progress bar and the console. *)
Definition is_outward (e : effect) : bool :=
  match e with
  | Hide | WarningDialog | Queue _ _ _ => true
  | _ => false
  end.

Definition outward (es : list effect) : list effect :=
  filter (λ e, is_outward e = true) es.

(** A library for examples: book 1 has two formats, book 2 has none,
    the metadata of book 3 cannot be read and the path of the format of
    book 4 cannot be found. *)
Definition shelf : library :=
  {| get_metadata := λ id,
       if id =? 1 then Done {| title := u "One"; formats := Some [u "PDF"; u "EPUB"];
                               last_modified := 10; isbn := None |}
       else if id =? 2 then Done {| title := u "Two"; formats := None;
                                    last_modified := 20; isbn := None |}
       else if id =? 4 then Done {| title := u "Four"; formats := Some [u "PDF"];
                                    last_modified := 40; isbn := Some (u "123") |}
       else Raised (Failure "NoSuchBook");
     format_abspath := λ id f,
       if id =? 4 then Raised (Failure "IOError") else Done (Some (u "/library/" ++ f));
     sort_formats_by_preference := λ fs _, reverse fs;
     input_map := [u "EPUB"; u "PDF"] |}.
End Dialogs.

(** * Properties *)

(** ** Built-in operations *)

Section PyFacts.
Import Py.

Lemma truthy_true {A} (s : list A) : truthy s = true ↔ s ≠ [].
Proof. by destruct s. Qed.

Lemma lstrip_by_clean {A} (ws : A → bool) (s : list A) :
  clean_head ws (lstrip_by ws s).
Proof.
  induction s as [|c r IH]; [done|]. cbn. by destruct (ws c) eqn:Hc.
Qed.

Lemma lstrip_by_id {A} (ws : A → bool) (s : list A) :
  clean_head ws s → lstrip_by ws s = s.
Proof. destruct s as [|c r]; [done|]. cbn. by intros ->. Qed.

Lemma clean_head_app {A} (ws : A → bool) (s t : list A) :
  s ≠ [] → clean_head ws (s ++ t) → clean_head ws s.
Proof. by destruct s. Qed.

Lemma lstrip_by_keeps_last {A} (ws : A → bool) (s : list A) :
  clean_head ws (reverse s) → clean_head ws (reverse (lstrip_by ws s)).
Proof.
  induction s as [|c r IH]; [done|]. cbn [lstrip_by]. destruct (ws c); [|done].
  rewrite reverse_cons. intros Hlast. destruct r as [|c' r']; [done|].
  apply IH. apply (clean_head_app _ _ [c]); [|done].
  rewrite reverse_cons. by destruct (reverse r').
Qed.

Lemma strip_by_idemp {A} (ws : A → bool) (s : list A) :
  strip_by ws (strip_by ws s) = strip_by ws s.
Proof.
  unfold strip_by.
  set (a := lstrip_by ws s). set (b := lstrip_by ws (reverse a)).
  assert (clean_head ws (reverse b)) as Hlast.
  { apply lstrip_by_keeps_last. rewrite reverse_involutive. apply lstrip_by_clean. }
  rewrite (lstrip_by_id ws (reverse b) Hlast), reverse_involutive.
  by rewrite (lstrip_by_id ws b (lstrip_by_clean ws (reverse a))).
Qed.

Lemma strip_idemp (s : str) : strip (strip s) = strip s.
Proof. apply strip_by_idemp. Qed.

Lemma partition_app (c : N) (h t : str) :
  contains c h = false → partition c (h ++ c :: t) = (h, [c], t).
Proof.
  induction h as [|x h IH]; cbn.
  - intros _. unfold N_is. by rewrite N.eqb_refl.
  - unfold N_is. rewrite (N.eqb_sym c x). destruct (x =? c)%N; [done|].
    cbn. intros Hh. by rewrite (IH Hh).
Qed.

Lemma partition_found (c : N) (s : str) :
  contains c s = true →
  ∃ h t, partition c s = (h, [c], t) ∧ s = h ++ c :: t.
Proof.
  induction s as [|x s IH]; cbn; [done|].
  unfold N_is. rewrite (N.eqb_sym c x). destruct (x =? c)%N eqn:Hx.
  - intros _. apply N.eqb_eq in Hx as ->. by exists [], s.
  - cbn. intros Hc. destruct (IH Hc) as (h & t & -> & ->). by exists (x :: h), t.
Qed.
End PyFacts.

(** ** The two tool wrappers: what they deliver and what they record *)

Section ToolFacts.
Import Py Pdf.
Variable int : str → option Z.
Variable w : world.

Ltac run_monad :=
  unfold get_page_count, call_pdftohtml, try_except, check_output, when,
    record_call, write_log, set_index_file, get_index_file, raise, lift,
    mbind, M_bind, mret, M_ret.

Lemma get_page_count_run (s : state) :
  ∃ s', get_page_count int w s = (page_count_outcome int w, s')
        ∧ calls s' = calls s ++ [CallPdfinfo].
Proof.
  unfold page_count_outcome. run_monad. cbn.
  repeat case_match; simplify_eq; eexists; split; try reflexivity; done.
Qed.

Lemma call_pdftohtml_run (first last : option Z) (s : state) :
  ∃ s', call_pdftohtml w first last s = (extraction_outcome w first last, s')
        ∧ calls s' = calls s ++ [CallPdftohtml first last].
Proof.
  unfold extraction_outcome. run_monad. cbn.
  destruct (bool_decide (is_Some (index_file s))); cbn;
    repeat (first [progress simplify_eq/= | case_match]);
    eexists; split; try reflexivity; done.
Qed.
End ToolFacts.

(** ** The page-range strategy of [get_isbn] *)

Section StrategyFacts.
Import Py Pdf.
Variable int : str → option Z.
Context `{ScannerAPI}.
Variable w : world.
Variable g : globals.
Variable log_given : bool.

Ltac tool_step :=
  match goal with
  | |- context [get_page_count int w ?s0] =>
      let s1 := fresh "s" in let Hc := fresh "Hcalls" in
      destruct (get_page_count_run int w s0) as (s1 & -> & Hc)
  | |- context [call_pdftohtml w ?first ?last ?s0] =>
      let s1 := fresh "s" in let Hc := fresh "Hcalls" in
      destruct (call_pdftohtml_run w first last s0) as (s1 & -> & Hc)
  end.

Ltac enter_get_isbn :=
  unfold get_isbn, try_finally, when, new_log, print_log, raise,
    mbind, M_bind, mret, M_ret;
  destruct log_given; simpl.

Ltac finish :=
  eexists; split; [reflexivity | simpl in *; congruence].

(** With no page count the local [scanner] is never bound. *)
Lemma get_isbn_unbound (s : state) :
  page_count_outcome int w = Return None →
  ∃ s', get_isbn int w g log_given s = (Raise (UnboundLocalError "scanner"), s')
        ∧ calls s' = calls s ++ [CallPdfinfo].
Proof.
  intros Hpc. enter_get_isbn; tool_step; rewrite Hpc; simpl; finish.
Qed.

(** A failing page count is passed on. *)
Lemma get_isbn_page_count_raises (s : state) (e : exn) :
  page_count_outcome int w = Raise e →
  ∃ s', get_isbn int w g log_given s = (Raise e, s')
        ∧ calls s' = calls s ++ [CallPdfinfo].
Proof.
  intros Hpc. enter_get_isbn; tool_step; rewrite Hpc; simpl; finish.
Qed.

(** At most [FRONT_PAGES + BACK_PAGES] pages: one call, no range. *)
Lemma get_isbn_whole (s : state) (total : Z) :
  page_count_outcome int w = Return (Some total) →
  total ≤ FRONT_PAGES g + BACK_PAGES g →
  ∃ s', get_isbn int w g log_given s =
          (match extraction_outcome w None None with
           | Return text =>
               Return (get_isbn_result (look_for_identifiers_in_text BookScanner [text]))
           | Raise e => Raise e
           end, s')
        ∧ calls s' = calls s ++ [CallPdfinfo; CallPdftohtml None None].
Proof.
  intros Hpc Hle. apply Z.leb_le in Hle.
  enter_get_isbn; tool_step; rewrite Hpc; simpl; rewrite Hle;
    tool_step; destruct (extraction_outcome w None None); simpl;
    eexists; (split; [reflexivity|]); simpl in *;
    rewrite ?Hcalls0, ?Hcalls; simpl; by rewrite <- ?app_assoc.
Qed.

(** More pages: the front range, then the back range when the front
    range gave no identifier. *)
Lemma get_isbn_windows (s : state) (total : Z) :
  page_count_outcome int w = Return (Some total) →
  FRONT_PAGES g + BACK_PAGES g < total →
  let front := CallPdftohtml (Some 1) (Some (FRONT_PAGES g)) in
  let back := CallPdftohtml (Some (total - BACK_PAGES g)) (Some total) in
  ∃ r s', get_isbn int w g log_given s = (r, s') ∧
    match extraction_outcome w (Some 1) (Some (FRONT_PAGES g)) with
    | Raise e => r = Raise e ∧ calls s' = calls s ++ [CallPdfinfo; front]
    | Return text =>
        let scanned := look_for_identifiers_in_text BookScanner [text] in
        if has_identifier scanned
        then r = Return (get_isbn_result scanned)
             ∧ calls s' = calls s ++ [CallPdfinfo; front]
        else r = match extraction_outcome w (Some (total - BACK_PAGES g)) (Some total) with
                 | Return text' =>
                     Return (get_isbn_result (look_for_identifiers_in_text scanned [text']))
                 | Raise e => Raise e
                 end
             ∧ calls s' = calls s ++ [CallPdfinfo; front; back]
    end.
Proof.
  intros Hpc Hlt front back.
  assert ((total <=? FRONT_PAGES g + BACK_PAGES g) = false) as Hle
    by (apply Z.leb_gt; lia).
  enter_get_isbn; tool_step; rewrite Hpc; simpl; rewrite Hle; tool_step.
  all: destruct (extraction_outcome w (Some 1) (Some (FRONT_PAGES g))) as [text|e]; simpl.
  all: try destruct (has_identifier (look_for_identifiers_in_text BookScanner [text])) eqn:Hid; simpl.
  all: try tool_step.
  all: try destruct (extraction_outcome w (Some (total - BACK_PAGES g)) (Some total)); simpl.
  all: do 2 eexists; (split; [reflexivity|]); simpl in *.
  all: rewrite ?Hid; split; [reflexivity|]; simpl in *.
  all: rewrite ?Hcalls1, ?Hcalls0, ?Hcalls; simpl; by rewrite <- ?app_assoc.
Qed.
End StrategyFacts.

(** ** The scanner *)

Section ScanFacts.
Import Py Scan.
Variable locate : str → list str.

Lemma validate_kind (valid : list str) (raw : str) (i : Identifier) :
  validate valid raw = Some i →
  (id_kind i = ISBN10 ∧ length (digits i) = 10%nat)
  ∨ (id_kind i = ISBN13 ∧ length (digits i) = 13%nat ∧ take 3 (digits i) ∈ valid).
Proof.
  unfold validate. intros Hv.
  destruct (decide (length (compact raw) = 10%nat)) as [H10|_];
    [|destruct (decide (length (compact raw) = 13%nat)) as [H13|_]; [|done]].
  - destruct (values10 (compact raw)) as [ds|]; [|done]. cbn in Hv.
    destruct (isbn10_ok ds); [|done]. injection Hv as <-. left. cbn.
    unfold normalize. by rewrite length_fmap.
  - destruct (values13 (compact raw)) as [ds|]; [|done]. cbn in Hv.
    destruct (isbn13_ok ds && prefix_ok valid (compact raw)) eqn:Hok; [|done].
    injection Hv as <-. right. cbn.
    apply andb_prop in Hok as [_ Hp]. by apply bool_decide_eq_true in Hp.
Qed.

Lemma foldl_feed_match (valid : list str) (raws : list str) (st : ScanState) :
  foldl (feed_match valid) st raws = foldl record_id st (omap (validate valid) raws).
Proof.
  revert st. induction raws as [|raw raws IH]; intros st; [done|].
  cbn. unfold feed_match at 2. destruct (validate valid raw); cbn; apply IH.
Qed.

Lemma feed_all_run (sc : Scanner) (texts : list str) :
  valid_isbn13s (feed_all locate sc texts) = valid_isbn13s sc
  ∧ state (feed_all locate sc texts)
    = foldl record_id (state sc) (valid_matches locate (valid_isbn13s sc) texts).
Proof.
  unfold valid_matches, feed_all. revert sc.
  induction texts as [|text texts IH]; intros sc; [done|].
  cbn. destruct (IH (feed locate sc text)) as [-> ->]. split; [done|].
  cbn. by rewrite omap_app, foldl_app, foldl_feed_match.
Qed.

Lemma found13_foldl (ids : list Identifier) (st : ScanState) :
  found13 (foldl record_id st ids)
  = match found13 st with
    | Some i => Some i
    | None => first_of ISBN13 ids
    end.
Proof.
  unfold first_of. revert st. induction ids as [|i ids IH]; intros st; cbn.
  - by destruct (found13 st).
  - rewrite IH. unfold record_id, filter. cbn.
    destruct (id_kind i) eqn:Hk, (found13 st) eqn:H13, (found10 st);
      cbn; rewrite ?H13; by repeat case_decide.
Qed.

Lemma found10_foldl (ids : list Identifier) (st : ScanState) :
  found10 (foldl record_id st ids)
  = match found10 st with
    | Some i => Some i
    | None => first_of ISBN10 ids
    end.
Proof.
  unfold first_of. revert st. induction ids as [|i ids IH]; intros st; cbn.
  - by destruct (found10 st).
  - rewrite IH. unfold record_id, filter. cbn.
    destruct (id_kind i) eqn:Hk, (found13 st), (found10 st) eqn:H10;
      cbn; rewrite ?H10; by repeat case_decide.
Qed.

Lemma first_of_kind (k : kind) (ids : list Identifier) (i : Identifier) :
  first_of k ids = Some i → id_kind i = k ∧ i ∈ ids.
Proof.
  unfold first_of. intros Hh. apply head_Some_elem_of in Hh.
  by apply list_elem_of_filter in Hh.
Qed.

Lemma first_of_is_Some (k : kind) (ids : list Identifier) (i : Identifier) :
  i ∈ ids → id_kind i = k → is_Some (first_of k ids).
Proof.
  unfold first_of. intros Hin Hk.
  assert (i ∈ filter (λ i, id_kind i = k) ids) as Hf
    by (by apply list_elem_of_filter).
  destruct (filter (λ i, id_kind i = k) ids); [by apply elem_of_nil in Hf|by eexists].
Qed.
End ScanFacts.

(** ** The option store *)

Section ConfigFacts.
Import Py Config.

(** [save_settings] stores the prefix field as typed, blanks removed and
    split at commas; nothing is validated. *)
Lemma save_settings_stores_prefixes (self : ConfigWidget) (prefs : JSONConfig) :
  read_prefixes (save_settings self prefs)
  = Some (VList (VStr <$> split 44 (remove_char 32 (isbn13_ledit_text self)))).
Proof.
  unfold read_prefixes, save_settings, getitem, setitem, get. cbn.
  rewrite lookup_insert_eq. cbn.
  rewrite lookup_insert_ne by (by vm_compute).
  rewrite lookup_insert_ne by (by vm_compute).
  by rewrite lookup_insert_eq.
Qed.


End ConfigFacts.

(** ** The scanner on the examples of the spec *)

Section ScanExamples.
Import Py Scan.

Example separators_are_tolerated :
  digits <$> validate default_prefixes (u "978-0-13-468599-1") = Some (u "9780134685991")
  ∧ digits <$> validate default_prefixes (u "978 0 13 468599 1") = Some (u "9780134685991")
  ∧ digits <$> validate default_prefixes (u "9780134685991") = Some (u "9780134685991").
Proof. by vm_compute. Qed.

Example check_character_x :
  validate default_prefixes (u "0-8044-2957-x")
  = Some {| digits := u "080442957X"; id_kind := ISBN10; raw_span := u "0-8044-2957-x" |}.
Proof. by vm_compute. Qed.

Example one_digit_changed :
  validate default_prefixes (u "9780134685992") = None
  ∧ validate default_prefixes (u "0306406153") = None.
Proof. by vm_compute. Qed.

Example isbn13_wins_in_either_order :
  id_kind <$> result (feed simple_locate (new (Config.plugin_prefs ∅))
                        (u "ISBN 0-306-40615-2; ISBN 978-0-13-468599-1"))
  = Some ISBN13
  ∧ id_kind <$> result (feed simple_locate (new (Config.plugin_prefs ∅))
                          (u "ISBN 978-0-13-468599-1; ISBN 0-306-40615-2"))
    = Some ISBN13
  ∧ result (feed simple_locate (new (Config.plugin_prefs ∅)) (u "no number here")) = None.
Proof. by vm_compute. Qed.

Example feeding_twice_changes_nothing :
  let sc := feed simple_locate (new (Config.plugin_prefs ∅)) Worlds.both_text in
  feed simple_locate sc Worlds.both_text = sc.
Proof. by vm_compute. Qed.
End ScanExamples.

Section ScanClaims.
Import Py Scan.

(** C4: for every scan state the result query returns the ISBN-13 slot
    when it is filled, else the ISBN-10 slot, else none; after feeding
    text chunks to a new scanner the result is the first valid ISBN-13
    among the matches, else the first valid ISBN-10, else none; a text
    whose matches contain a valid ISBN-10 and a valid ISBN-13, in any
    order, yields an ISBN-13; a text without matches yields none. *)
Theorem result_prefers_isbn13 (locate : str → list str) (prefs : Config.JSONConfig) :
  (∀ sc : Scanner,
     result sc = match found13 (state sc) with
                 | Some i => Some i
                 | None => found10 (state sc)
                 end)
  ∧ (∀ texts : list str,
       let ids := valid_matches locate (valid_isbn13s (new prefs)) texts in
       result (feed_all locate (new prefs) texts)
       = match first_of ISBN13 ids with
         | Some i => Some i
         | None => first_of ISBN10 ids
         end)
  ∧ (∀ (text raw10 raw13 : str) (i10 i13 : Identifier),
       raw10 ∈ locate text → raw13 ∈ locate text →
       validate (valid_isbn13s (new prefs)) raw10 = Some i10 → id_kind i10 = ISBN10 →
       validate (valid_isbn13s (new prefs)) raw13 = Some i13 → id_kind i13 = ISBN13 →
       ∃ i, result (feed locate (new prefs) text) = Some i ∧ id_kind i = ISBN13)
  ∧ (∀ text : str,
       locate text = [] → result (feed locate (new prefs) text) = None).
Proof.
  assert (∀ texts : list str,
       result (feed_all locate (new prefs) texts)
       = match first_of ISBN13 (valid_matches locate (valid_isbn13s (new prefs)) texts) with
         | Some i => Some i
         | None => first_of ISBN10 (valid_matches locate (valid_isbn13s (new prefs)) texts)
         end) as Hfirst.
  { intros texts. unfold result.
    destruct (feed_all_run locate (new prefs) texts) as [_ ->].
    by rewrite found13_foldl, found10_foldl. }
  split; [done|]. split; [exact Hfirst|]. split.
  - intros text raw10 raw13 i10 i13 Hin10 Hin13 Hv10 Hk10 Hv13 Hk13.
    change (feed locate (new prefs) text) with (feed_all locate (new prefs) [text]).
    rewrite Hfirst.
    assert (i13 ∈ valid_matches locate (valid_isbn13s (new prefs)) [text]) as Hin.
    { unfold valid_matches. cbn. rewrite app_nil_r.
      apply list_elem_of_omap. by exists raw13. }
    destruct (first_of_is_Some ISBN13 _ _ Hin Hk13) as [i Hi].
    rewrite Hi. exists i. split; [done|]. by apply first_of_kind in Hi as [? _].
  - intros text Hnone.
    change (feed locate (new prefs) text) with (feed_all locate (new prefs) [text]).
    rewrite Hfirst. unfold valid_matches. cbn. by rewrite Hnone.
Qed.

(** C7: the default prefixes held by the configuration are the three
    3-character strings 977, 978 and 979, and a 13-digit candidate whose
    first three digits are not a configured prefix is discarded, whatever
    its check digit; 1234567890128 has the right check digit and is
    discarded under the defaults. *)
Theorem default_prefixes_and_prefix_rejection :
  Config.item Config.DEFAULT_STORE_VALUES Config.KEY_VALID_ISBN13_PREFIX
    = Config.VList [Config.VStr (u "977"); Config.VStr (u "978"); Config.VStr (u "979")]
  ∧ Config.read_prefixes (Config.plugin_prefs ∅)
    = Some (Config.VList [Config.VStr (u "977"); Config.VStr (u "978"); Config.VStr (u "979")])
  ∧ default_prefixes = [u "977"; u "978"; u "979"]
  ∧ Forall (λ p : str, length p = 3%nat) default_prefixes
  ∧ (∀ (valid : list str) (raw : str),
       length (compact raw) = 13%nat →
       take 3 (compact raw) ∉ valid →
       validate valid raw = None ∧ ∀ st, feed_match valid st raw = st)
  ∧ (isbn13_ok <$> values13 (u "1234567890128")) = Some true
  ∧ validate default_prefixes (u "1234567890128") = None.
Proof.
  split; [by vm_compute|]. split; [by vm_compute|]. split; [by vm_compute|].
  split; [by repeat constructor|]. split; [|by vm_compute].
  intros valid raw Hlen Hpre.
  assert (validate valid raw = None) as Hv.
  { unfold validate. rewrite Hlen.
    destruct (decide (13%nat = 10%nat)); [done|].
    destruct (decide (13%nat = 13%nat)); [|done].
    destruct (values13 (compact raw)) as [ds|]; [|done]. cbn.
    unfold prefix_ok. rewrite (bool_decide_eq_false_2 _ Hpre).
    by rewrite andb_false_r. }
  split; [done|]. intros st. unfold feed_match. by rewrite Hv.
Qed.

End ScanClaims.

Lemma result_prefers_isbn13_witness :
  ∃ i, Scan.result (Scan.feed Scan.simple_locate (Scan.new (Config.plugin_prefs ∅))
                      Worlds.both_text) = Some i
       ∧ Scan.id_kind i = Scan.ISBN13.
Proof.
  destruct (result_prefers_isbn13 Scan.simple_locate (Config.plugin_prefs ∅))
    as (_ & _ & Hboth & _).
  eapply (Hboth Worlds.both_text (Py.u "0-306-40615-2") (Py.u "978-0-13-468599-1")).
  - vm_compute. repeat constructor.
  - vm_compute. repeat constructor.
  - vm_compute. reflexivity.
  - reflexivity.
  - vm_compute. reflexivity.
  - reflexivity.
Defined.

Lemma default_prefixes_and_prefix_rejection_witness :
  length (Scan.compact Worlds.run_123) = 13%nat
  ∧ (take 3 (Scan.compact Worlds.run_123) ∉ Scan.default_prefixes)
  ∧ Scan.validate Scan.default_prefixes Worlds.run_123 = None.
Proof.
  assert (take 3 (Scan.compact Worlds.run_123) ∉ Scan.default_prefixes) as Hpre.
  { apply (bool_decide_eq_false_1 _). vm_compute. reflexivity. }
  split; [reflexivity|]. split; [exact Hpre|].
  destruct default_prefixes_and_prefix_rejection as (_ & _ & _ & _ & Hrej & _).
  exact (proj1 (Hrej Scan.default_prefixes Worlds.run_123 eq_refl Hpre)).
Defined.



(** ** [get_isbn]: which pages are extracted and what is returned *)

Section StrategyClaims.
Import Py Pdf.
Variable int : str → option Z.
Context `{ScannerAPI}.
Variable w : world.
Variable log_given : bool.

Lemma extractions_app (cs cs' : list call) :
  extractions (cs ++ cs') = extractions cs ++ extractions cs'.
Proof. apply omap_app. Qed.

(** C1: with more than [FRONT_PAGES + BACK_PAGES] pages, the first
    extraction that [get_isbn] issues is for pages 1 to [FRONT_PAGES], and
    the text it returns is scanned; the range from [total - BACK_PAGES] to
    [total] is extracted next exactly when [has_identifier] is false after
    the front scan, and its text is scanned by the same scanner; once the
    front scan gives an identifier no further extraction is issued and the
    result of the front scan is returned. *)
Theorem front_range_then_back_range_unless_identifier (s : state) (total : Z) :
  page_count_outcome int w = Return (Some total) →
  FRONT_PAGES module_globals + BACK_PAGES module_globals < total →
  let front := (Some 1, Some (FRONT_PAGES module_globals)) in
  let back := (Some (total - BACK_PAGES module_globals), Some total) in
  ∃ r s' issued,
    get_isbn int w module_globals log_given s = (r, s')
    ∧ extractions (calls s') = extractions (calls s) ++ front :: issued
    ∧ ∀ text,
        extraction_outcome w (Some 1) (Some (FRONT_PAGES module_globals)) = Return text →
        let scanned := look_for_identifiers_in_text BookScanner [text] in
        (issued = [back] ↔ has_identifier scanned = false)
        ∧ (issued = [] ↔ has_identifier scanned = true)
        ∧ (has_identifier scanned = true → r = Return (get_isbn_result scanned))
        ∧ (has_identifier scanned = false →
           ∀ text', extraction_outcome w (Some (total - BACK_PAGES module_globals))
                      (Some total) = Return text' →
                    r = Return (get_isbn_result
                                  (look_for_identifiers_in_text scanned [text']))).
Proof.
  intros Hpc Hlt front back.
  destruct (get_isbn_windows int w module_globals log_given s total Hpc Hlt)
    as (r & s' & Hrun & Hcases).
  destruct (extraction_outcome w (Some 1) (Some (FRONT_PAGES module_globals)))
    as [text0|e].
  - cbn zeta in Hcases.
    destruct (has_identifier (look_for_identifiers_in_text BookScanner [text0])) eqn:Hid;
      destruct Hcases as [Hr Hcalls].
    + exists r, s', []. split; [done|]. rewrite Hcalls, extractions_app.
      split; [done|]. intros text [= <-] scanned. subst scanned. rewrite Hid.
      repeat split; done.
    + exists r, s', [back]. split; [done|]. rewrite Hcalls, extractions_app.
      split; [done|]. intros text [= <-] scanned. subst scanned. rewrite Hid.
      repeat split; try done. intros _ text' Hback. by rewrite Hr, Hback.
  - destruct Hcases as [Hr Hcalls].
    exists r, s', []. split; [done|]. rewrite Hcalls, extractions_app.
    split; [done|]. by intros text.
Qed.

(** C3: with at most [FRONT_PAGES + BACK_PAGES] pages, [get_isbn] issues
    exactly one extraction, for the whole document (no first and no last
    page), and scans its text. *)
Theorem whole_document_in_one_call (s : state) (total : Z) :
  page_count_outcome int w = Return (Some total) →
  total ≤ FRONT_PAGES module_globals + BACK_PAGES module_globals →
  ∃ r s',
    get_isbn int w module_globals log_given s = (r, s')
    ∧ extractions (calls s') = extractions (calls s) ++ [(None, None)]
    ∧ (∀ text, extraction_outcome w None None = Return text →
         r = Return (get_isbn_result (look_for_identifiers_in_text BookScanner [text]))).
Proof.
  intros Hpc Hle.
  destruct (get_isbn_whole int w module_globals log_given s total Hpc Hle)
    as (s' & Hrun & Hcalls).
  eexists _, s'. split; [exact Hrun|]. rewrite Hcalls, extractions_app.
  split; [done|]. intros text Hwhole. by rewrite Hwhole.
Qed.

(** C2: when [get_page_count] returns none, [get_isbn] extracts and scans
    nothing, but it does not return none: the local [scanner] was never
    bound and reading it raises [UnboundLocalError]. *)
Theorem no_page_count_raises_unbound_local (g : globals) (s : state) :
  page_count_outcome int w = Return None →
  ∃ s', get_isbn int w g log_given s = (Raise (UnboundLocalError "scanner"), s')
        ∧ extractions (calls s') = extractions (calls s).
Proof.
  intros Hpc.
  destruct (get_isbn_unbound int w g log_given s Hpc) as (s' & Hrun & Hcalls).
  exists s'. split; [done|]. rewrite Hcalls, extractions_app. cbn.
  by rewrite app_nil_r.
Qed.

(** C8: the module binds [FRONT_PAGES] to 25 and [BACK_PAGES] to 15, and
    [get_isbn] reads both names when it runs: under any other binding the
    threshold is their sum, the front range ends at [FRONT_PAGES] and the
    back range starts at [total - BACK_PAGES]. *)
Theorem window_sizes_are_module_constants :
  FRONT_PAGES module_globals = 25
  ∧ BACK_PAGES module_globals = 15
  ∧ ∀ (g : globals) (s : state) (total : Z),
      page_count_outcome int w = Return (Some total) →
      ∃ r s',
        get_isbn int w g log_given s = (r, s')
        ∧ extractions (calls s')
          = extractions (calls s)
            ++ (if total <=? FRONT_PAGES g + BACK_PAGES g then [(None, None)]
                else (Some 1, Some (FRONT_PAGES g))
                     :: match extraction_outcome w (Some 1) (Some (FRONT_PAGES g)) with
                        | Return text =>
                            if has_identifier (look_for_identifiers_in_text BookScanner [text])
                            then []
                            else [(Some (total - BACK_PAGES g), Some total)]
                        | Raise _ => []
                        end).
Proof.
  split; [done|]. split; [done|]. intros g s total Hpc.
  destruct (total <=? FRONT_PAGES g + BACK_PAGES g) eqn:Hle.
  - apply Z.leb_le in Hle.
    destruct (get_isbn_whole int w g log_given s total Hpc Hle) as (s' & Hrun & Hcalls).
    eexists _, s'. split; [exact Hrun|]. by rewrite Hcalls, extractions_app.
  - apply Z.leb_gt in Hle.
    destruct (get_isbn_windows int w g log_given s total Hpc Hle)
      as (r & s' & Hrun & Hcases).
    exists r, s'. split; [done|].
    destruct (extraction_outcome w (Some 1) (Some (FRONT_PAGES g))) as [text|e].
    + cbn zeta in Hcases.
      destruct (has_identifier (look_for_identifiers_in_text BookScanner [text]));
        destruct Hcases as [_ ->]; by rewrite extractions_app.
    + destruct Hcases as [_ ->]. by rewrite extractions_app.
Qed.
End StrategyClaims.

(** ** [get_page_count] and [call_pdftohtml]: failures and results *)

Section ToolClaims.
Import Py Pdf.
Variable int : str → option Z.
Variable w : world.

Lemma contains_app (c : N) (s t : str) :
  contains c (s ++ t) = contains c s || contains c t.
Proof. apply existsb_app. Qed.

Lemma lookup_add_field_hit (ans : gmap str str) (k v : str) :
  k ≠ [] → contains 58 k = false → strip v ≠ [] →
  add_field ans (k ++ 58%N :: v) !! k = Some (strip v).
Proof.
  intros Hk Hc Hv. unfold add_field.
  rewrite contains_app, Hc, (partition_app _ _ _ Hc). cbn.
  rewrite (proj2 (truthy_true k) Hk), (proj2 (truthy_true (strip v)) Hv). cbn.
  by rewrite lookup_insert_eq, strip_idemp.
Qed.

Lemma lookup_add_field_miss (ans : gmap str str) (line k : str) :
  (∀ v, line = k ++ 58%N :: v → strip v = []) →
  add_field ans line !! k = ans !! k.
Proof.
  intros Hmiss. unfold add_field.
  destruct (contains 58 line) eqn:Hc; cbn; [|done].
  destruct (partition_found _ _ Hc) as (h & t & -> & ->).
  destruct (truthy h && truthy (strip t)) eqn:Ht; [|done].
  destruct (decide (h = k)) as [->|Hne]; [|by rewrite lookup_insert_ne].
  rewrite (Hmiss t eq_refl) in Ht. by rewrite andb_false_r in Ht.
Qed.

Lemma lookup_foldl_miss (lines : list str) (ans : gmap str str) (k : str) :
  (∀ line v, line ∈ lines → line = k ++ 58%N :: v → strip v = []) →
  foldl add_field ans lines !! k = ans !! k.
Proof.
  revert ans. induction lines as [|line lines IH]; intros ans Hmiss; [done|].
  cbn. rewrite IH.
  - apply lookup_add_field_miss. intros v. apply Hmiss. by left.
  - intros line' v Hin. apply Hmiss. by right.
Qed.

Lemma page_count_outcome_eq :
  page_count_outcome int w =
    match pdfinfo_spawn_error (pdfinfo w) with
    | Some errno => Raise (OSError errno)
    | None =>
        if pdfinfo_returncode (pdfinfo w) =? 0 then
          match decode_utf8 (pdfinfo_stdout (pdfinfo w)) with
          | None => Return None
          | Some raw =>
              match info_dict raw !! u "Pages" with
              | Some pages =>
                  match int pages with
                  | Some n => Return (Some n)
                  | None => Raise ValueError
                  end
              | None => Return None
              end
          end
        else Return None
    end.
Proof.
  unfold page_count_outcome, get_page_count, try_except, check_output,
    record_call, write_log, raise, mbind, M_bind, mret, M_ret.
  cbn. repeat case_match; by simplify_eq/=.
Qed.

(** C10: [get_page_count] returns none when pdfinfo exits with a
    non-zero return code, when its output is not UTF-8 and when no line
    of the output has the field Pages; when a line Pages: with a
    non-empty value is present (the last such line counts), the value
    converted by [int] is returned. *)
Theorem get_page_count_none_or_pages :
  let run := pdfinfo w in
  (pdfinfo_spawn_error run = None → pdfinfo_returncode run ≠ 0 →
     page_count_outcome int w = Return None)
  ∧ (pdfinfo_spawn_error run = None → pdfinfo_returncode run = 0 →
     decode_utf8 (pdfinfo_stdout run) = None →
     page_count_outcome int w = Return None)
  ∧ (∀ raw : str,
       pdfinfo_spawn_error run = None → pdfinfo_returncode run = 0 →
       decode_utf8 (pdfinfo_stdout run) = Some raw →
       (∀ v, u "Pages" ++ 58%N :: v ∉ splitlines raw) →
       page_count_outcome int w = Return None)
  ∧ (∀ (raw : str) (before after : list str) (val : str) (n : Z),
       pdfinfo_spawn_error run = None → pdfinfo_returncode run = 0 →
       decode_utf8 (pdfinfo_stdout run) = Some raw →
       splitlines raw = before ++ (u "Pages" ++ 58%N :: val) :: after →
       strip val ≠ [] →
       (∀ v, u "Pages" ++ 58%N :: v ∈ after → strip v = []) →
       int (strip val) = Some n →
       page_count_outcome int w = Return (Some n)).
Proof.
  intros run. subst run. rewrite page_count_outcome_eq.
  split; [|split; [|split]].
  - intros -> Hrc. apply Z.eqb_neq in Hrc. by rewrite Hrc.
  - by intros -> -> ->.
  - intros raw -> -> -> Hnone. cbn. unfold info_dict.
    rewrite lookup_foldl_miss; [done|].
    intros line v Hin ->. by destruct (Hnone v).
  - intros raw before after val n -> -> -> Hlines Hval Hlast Hint. cbn.
    unfold info_dict. rewrite Hlines, foldl_app. cbn [foldl].
    rewrite lookup_foldl_miss.
    + rewrite lookup_add_field_hit; [by rewrite Hint|done|done|done].
    + intros line v Hin ->. by apply Hlast.
Qed.

(** C9: [call_pdftohtml] raises [ConversionError] when pdftohtml cannot
    be found (ENOENT) and when the process exits with a non-zero return
    code; it raises [DRMError] when the process exits with 0 and
    [index.xml] is absent or smaller than 100 bytes; it returns text only
    when the process was started, exited with 0 and left an [index.xml]
    of at least 100 bytes. *)
Theorem call_pdftohtml_failures (first last : option Z) (s : state) :
  let run := pdftohtml w first last in
  let r := (call_pdftohtml w first last s).1 in
  (popen_error run = Some ENOENT →
     r = Raise (ConversionError
                  (Message "Could not find pdftohtml, check it is in your PATH")))
  ∧ (∀ ret : Z,
       popen_error run = None →
       wait (wait_errors run) (returncode run) = Return ret → ret ≠ 0 →
       r = Raise (ConversionError (Output (bytes_strip (logfile run)))))
  ∧ (popen_error run = None →
     wait (wait_errors run) (returncode run) = Return 0 →
     index_xml run = None ∨ (∃ f, index_xml run = Some f ∧ st_size f < 100) →
     r = Raise DRMError)
  ∧ (∀ text : str,
       r = Return text →
       popen_error run = None
       ∧ wait (wait_errors run) (returncode run) = Return 0
       ∧ ∃ f texts, index_xml run = Some f ∧ 100 ≤ st_size f
                    ∧ text_elements f = Return texts
                    ∧ text = join (or_empty <$> texts)).
Proof.
  intros run r. subst r.
  destruct (call_pdftohtml_run w first last s) as (s' & -> & _). cbn [fst].
  unfold extraction_outcome, call_pdftohtml, when, record_call, write_log,
    set_index_file, get_index_file, raise, lift, mbind, M_bind, mret, M_ret.
  fold run. cbn. split; [|split; [|split]].
  - by intros ->.
  - intros ret -> -> Hret. apply Z.eqb_neq in Hret. cbn. by rewrite Hret.
  - intros -> -> Hindex. cbn.
    destruct Hindex as [->|(f & -> & Hsize)]; destruct (truthy _); cbn; try done.
    all: by rewrite (proj2 (Z.ltb_lt _ _) Hsize).
  - intros text.
    destruct (popen_error run) as [errno|]; [by destruct (errno =? ENOENT)|].
    destruct (wait (wait_errors run) (returncode run)) as [ret|e]; [|done].
    cbn. destruct (ret =? 0) eqn:Hret; [|done]. apply Z.eqb_eq in Hret as ->.
    cbn. destruct (truthy (bytes_strip (logfile run))); cbn.
    all: destruct (index_xml run) as [f|]; [|done].
    all: destruct (st_size f <? 100) eqn:Hsize; [done|].
    all: destruct (text_elements f) as [texts|e] eqn:Htexts; cbn; [|done].
    all: intros [= <-]; apply Z.ltb_ge in Hsize.
    all: split; [done|]; split; [done|]; by exists f, texts.
Qed.
End ToolClaims.

(** ** [get_isbn] when an extraction fails *)

Section FailureClaims.
Import Py Pdf.
Variable int : str → option Z.
Context `{ScannerAPI}.
Variable w : world.
Variable log_given : bool.

(** C5, as the code has it: when the extraction of a page range that
    [get_isbn] requests fails, [get_isbn] raises the very error of the
    extractor instead of returning a result; the failed request is the
    last extraction issued and the range was requested once, so nothing is
    retried and nothing more is extracted. *)
Theorem extraction_failure_propagates (s : state) (total : Z) :
  page_count_outcome int w = Return (Some total) →
  ∃ r s' issued,
    get_isbn int w module_globals log_given s = (r, s')
    ∧ extractions (calls s') = extractions (calls s) ++ issued
    ∧ ∀ first last e,
        (first, last) ∈ issued →
        extraction_outcome w first last = Raise e →
        r = Raise e
        ∧ ∃ before, issued = before ++ [(first, last)] ∧ (first, last) ∉ before.
Proof.
  intros Hpc.
  destruct (decide (total ≤ FRONT_PAGES module_globals + BACK_PAGES module_globals))
    as [Hle|Hgt].
  - destruct (get_isbn_whole int w module_globals log_given s total Hpc Hle)
      as (s' & Hrun & Hcalls).
    eexists _, s', [(None, None)]. split; [exact Hrun|].
    split; [by rewrite Hcalls, extractions_app|].
    intros first last e Hin Hraise. apply list_elem_of_singleton in Hin as [= -> ->].
    rewrite Hraise. split; [done|]. exists []. split; [done|]. apply not_elem_of_nil.
  - assert (FRONT_PAGES module_globals + BACK_PAGES module_globals < total) as Hlt by lia.
    destruct (get_isbn_windows int w module_globals log_given s total Hpc Hlt)
      as (r & s' & Hrun & Hcases).
    destruct (extraction_outcome w (Some 1) (Some (FRONT_PAGES module_globals)))
      as [text|e0] eqn:Hfront.
    + cbn zeta in Hcases.
      destruct (has_identifier (look_for_identifiers_in_text BookScanner [text]));
        destruct Hcases as [Hr Hcalls].
      * exists r, s', [(Some 1, Some (FRONT_PAGES module_globals))].
        split; [done|]. split; [by rewrite Hcalls, extractions_app|].
        intros first last e Hin Hraise.
        apply list_elem_of_singleton in Hin as [= -> ->].
        discriminate (eq_trans (eq_sym Hfront) Hraise).
      * exists r, s', [(Some 1, Some (FRONT_PAGES module_globals));
                       (Some (total - BACK_PAGES module_globals), Some total)].
        split; [done|]. split; [by rewrite Hcalls, extractions_app|].
        intros first last e Hin Hraise.
        apply elem_of_cons in Hin as [[= -> ->]|Hin];
          [discriminate (eq_trans (eq_sym Hfront) Hraise)|].
        apply list_elem_of_singleton in Hin as [= -> ->].
        cbn [FRONT_PAGES BACK_PAGES module_globals] in Hr, Hraise.
        rewrite Hraise in Hr. split; [done|].
        exists [(Some 1, Some (FRONT_PAGES module_globals))]. split; [done|].
        intros Hsame. apply list_elem_of_singleton in Hsame as [= _ Htotal].
        cbn in Hlt, Htotal. lia.
    + destruct Hcases as [Hr Hcalls].
      exists r, s', [(Some 1, Some (FRONT_PAGES module_globals))].
      split; [done|]. split; [by rewrite Hcalls, extractions_app|].
      intros first last e Hin Hraise.
      apply list_elem_of_singleton in Hin as [= -> ->].
      injection (eq_trans (eq_sym Hfront) Hraise) as ->.
      split; [done|]. exists []. split; [done|]. apply not_elem_of_nil.
Qed.
End FailureClaims.

(** ** The claims at concrete documents *)

Section Witnesses.
Import Py Pdf Worlds.

Lemma front_range_then_back_range_unless_identifier_witness :
  page_count_outcome decimal_int (document "200" front_text back_text) = Return (Some 200)
  ∧ FRONT_PAGES module_globals + BACK_PAGES module_globals < 200
  ∧ extraction_outcome (document "200" front_text back_text)
      (Some 1) (Some (FRONT_PAGES module_globals)) = Return front_text
  ∧ ∃ r s' issued,
      get_isbn (H := default_scanner) decimal_int (document "200" front_text back_text)
        module_globals false initial = (r, s')
      ∧ extractions (calls s') = (Some 1, Some 25) :: issued
      ∧ issued = [].
Proof.
  assert (page_count_outcome decimal_int (document "200" front_text back_text)
          = Return (Some 200)) as Hpc by (vm_compute; reflexivity).
  assert (FRONT_PAGES module_globals + BACK_PAGES module_globals < 200) as Hlt
    by reflexivity.
  assert (extraction_outcome (document "200" front_text back_text)
            (Some 1) (Some (FRONT_PAGES module_globals)) = Return front_text) as Hfront
    by (vm_compute; reflexivity).
  split; [exact Hpc|]. split; [exact Hlt|]. split; [exact Hfront|].
  destruct (front_range_then_back_range_unless_identifier
              decimal_int (H := default_scanner) _ false initial 200 Hpc Hlt)
    as (r & s' & issued & Hrun & Hcalls & Hscan).
  destruct (Hscan front_text Hfront) as (_ & Hnone & _).
  exists r, s', issued. split; [exact Hrun|]. split; [exact Hcalls|].
  apply Hnone. vm_compute. reflexivity.
Defined.

Lemma whole_document_in_one_call_witness :
  page_count_outcome decimal_int (document "30" plain_text back_text) = Return (Some 30)
  ∧ 30 ≤ FRONT_PAGES module_globals + BACK_PAGES module_globals
  ∧ ∃ r s',
      get_isbn (H := default_scanner) decimal_int (document "30" plain_text back_text)
        module_globals false initial = (r, s')
      ∧ extractions (calls s') = [(None, None)].
Proof.
  assert (page_count_outcome decimal_int (document "30" plain_text back_text)
          = Return (Some 30)) as Hpc by (vm_compute; reflexivity).
  assert (30 ≤ FRONT_PAGES module_globals + BACK_PAGES module_globals) as Hle
    by (vm_compute; discriminate).
  split; [exact Hpc|]. split; [exact Hle|].
  destruct (whole_document_in_one_call decimal_int (H := default_scanner) _ false
              initial 30 Hpc Hle) as (r & s' & Hrun & Hcalls & _).
  exists r, s'. split; [exact Hrun|exact Hcalls].
Defined.

Lemma no_page_count_raises_unbound_local_witness :
  page_count_outcome decimal_int unreadable = Return None
  ∧ ∃ s', get_isbn (H := default_scanner) decimal_int unreadable module_globals false initial
          = (Raise (UnboundLocalError "scanner"), s')
          ∧ extractions (calls s') = [].
Proof.
  assert (page_count_outcome decimal_int unreadable = Return None) as Hpc
    by (vm_compute; reflexivity).
  split; [exact Hpc|].
  exact (no_page_count_raises_unbound_local decimal_int (H := default_scanner)
           unreadable false module_globals initial Hpc).
Defined.

Lemma window_sizes_are_module_constants_witness :
  page_count_outcome decimal_int (document "200" plain_text back_text) = Return (Some 200)
  ∧ ∃ r s',
      get_isbn (H := default_scanner) decimal_int (document "200" plain_text back_text)
        narrow false initial = (r, s')
      ∧ extractions (calls s') = [(Some 1, Some 2); (Some 197, Some 200)].
Proof.
  assert (page_count_outcome decimal_int (document "200" plain_text back_text)
          = Return (Some 200)) as Hpc by (vm_compute; reflexivity).
  split; [exact Hpc|].
  destruct (window_sizes_are_module_constants decimal_int (H := default_scanner)
              (document "200" plain_text back_text) false) as (_ & _ & Htuned).
  destruct (Htuned narrow initial 200 Hpc) as (r & s' & Hrun & Hcalls).
  exists r, s'. split; [exact Hrun|]. rewrite Hcalls. vm_compute. reflexivity.
Defined.

(** C5 as the spec states it fails: pdftohtml leaves a 42-byte
    [index.xml] for the front range of a 200-page document; the
    extraction raises [DRMError] and [get_isbn] returns no result. *)
Lemma failed_extraction_is_not_absorbed :
  page_count_outcome decimal_int (protected "200") = Return (Some 200)
  ∧ extraction_outcome (protected "200") (Some 1) (Some 25) = Raise DRMError
  ∧ ¬ ∃ r s', get_isbn (H := default_scanner) decimal_int (protected "200")
                module_globals false initial = (Return r, s').
Proof.
  split; [by vm_compute|]. split; [by vm_compute|].
  intros (r & s' & Hrun). vm_compute in Hrun. discriminate Hrun.
Qed.

Lemma extraction_failure_propagates_witness :
  page_count_outcome decimal_int (protected "200") = Return (Some 200)
  ∧ ∃ s', get_isbn (H := default_scanner) decimal_int (protected "200")
            module_globals false initial = (Raise DRMError, s').
Proof.
  assert (page_count_outcome decimal_int (protected "200") = Return (Some 200)) as Hpc
    by (vm_compute; reflexivity).
  split; [exact Hpc|].
  destruct (extraction_failure_propagates decimal_int (H := default_scanner)
              (protected "200") false initial 200 Hpc)
    as (r & s' & issued & Hrun & Hcalls & Hfail).
  exists s'. rewrite Hrun. f_equal.
  assert ((Some 1, Some 25) ∈ issued) as Hin.
  { pose proof Hrun as Hrun'. vm_compute in Hrun'. injection Hrun' as _ Hs'.
    rewrite <- Hs' in Hcalls. vm_compute in Hcalls. rewrite <- Hcalls. constructor. }
  apply (Hfail (Some 1) (Some 25) DRMError Hin). vm_compute. reflexivity.
Defined.

Lemma call_pdftohtml_failures_witness :
  (call_pdftohtml (converter run_missing) None None initial).1
    = Raise (ConversionError
               (Message "Could not find pdftohtml, check it is in your PATH"))
  ∧ (call_pdftohtml (converter (run_exit 1 "Syntax Error")) None None initial).1
    = Raise (ConversionError (Output (b "Syntax Error")))
  ∧ (call_pdftohtml (converter (run_small 42)) None None initial).1 = Raise DRMError
  ∧ popen_error (run_text plain_text) = None
  ∧ wait (wait_errors (run_text plain_text)) (returncode (run_text plain_text)) = Return 0.
Proof.
  split; [|split; [|split]].
  - destruct (call_pdftohtml_failures (converter run_missing) None None initial)
      as (Hmissing & _). apply Hmissing. reflexivity.
  - destruct (call_pdftohtml_failures (converter (run_exit 1 "Syntax Error"))
                None None initial) as (_ & Hexit & _).
    apply (Hexit 1); [reflexivity|reflexivity|discriminate].
  - destruct (call_pdftohtml_failures (converter (run_small 42)) None None initial)
      as (_ & _ & Hsmall & _).
    apply Hsmall; [reflexivity|reflexivity|].
    right. exists {| st_size := 42; text_elements := Return [] |}.
    split; reflexivity.
  - destruct (call_pdftohtml_failures (converter (run_text plain_text))
                None None initial) as (_ & _ & _ & Htext).
    destruct (Htext plain_text) as (Hpopen & Hwait & _); [by vm_compute|].
    split; [exact Hpopen|exact Hwait].
Defined.

Lemma get_page_count_none_or_pages_witness :
  page_count_outcome decimal_int (inspector (pdfinfo_fails 1)) = Return None
  ∧ page_count_outcome decimal_int (inspector pdfinfo_latin) = Return None
  ∧ page_count_outcome decimal_int
      (inspector (pdfinfo_prints "Title:          A book")) = Return None
  ∧ page_count_outcome decimal_int (inspector (pdfinfo_prints (info "200")))
    = Return (Some 200).
Proof.
  split; [|split; [|split]].
  - destruct (get_page_count_none_or_pages decimal_int (inspector (pdfinfo_fails 1)))
      as (Hfails & _). apply Hfails; [reflexivity|discriminate].
  - destruct (get_page_count_none_or_pages decimal_int (inspector pdfinfo_latin))
      as (_ & Hlatin & _). apply Hlatin; reflexivity.
  - destruct (get_page_count_none_or_pages decimal_int
                (inspector (pdfinfo_prints "Title:          A book")))
      as (_ & _ & Hnone & _).
    apply (Hnone (u "Title:          A book")); [reflexivity|reflexivity|by vm_compute|].
    intros v Hin. apply list_elem_of_singleton in Hin. discriminate Hin.
  - destruct (get_page_count_none_or_pages decimal_int
                (inspector (pdfinfo_prints (info "200")))) as (_ & _ & _ & Hpages).
    apply (Hpages (u (info "200")) [u "Title:          A book"]
             [u "Encrypted:      no"] (u "          200") 200).
    + reflexivity.
    + reflexivity.
    + by vm_compute.
    + by vm_compute.
    + by vm_compute.
    + intros v Hin. apply list_elem_of_singleton in Hin. discriminate Hin.
    + by vm_compute.
Defined.
End Witnesses.

(** * Further properties of [pdf.py] *)

(** ** Computations that only add to the state *)

Section Appends.
Import Py Pdf.

Lemma appends_ret {A} (a : A) : appends (mret a).
Proof. intros s. cbn. by rewrite !app_nil_r. Qed.

Lemma appends_raise {A} (e : exn) : appends (raise (A := A) e).
Proof. intros s. cbn. by rewrite !app_nil_r. Qed.

Lemma appends_lift {A} (r : result A) : appends (lift r).
Proof. intros s. cbn. by rewrite !app_nil_r. Qed.

Lemma appends_bind {A B} (m : M A) (f : A → M B) :
  appends m → (∀ a, appends (f a)) → appends (m ≫= f).
Proof.
  intros Hm Hf s. unfold mbind, M_bind.
  destruct (Hm s) as (Hr & Hc & Hl & Ho).
  destruct (m s) as [[a|e] s1], (m initial) as [[a0|e0] s0]; cbn in *; simplify_eq.
  - destruct (Hf a0 s1) as (Hr1 & Hc1 & Hl1 & Ho1).
    destruct (Hf a0 s0) as (Hr0 & Hc0 & Hl0 & Ho0).
    rewrite Hr1, Hc1, Hl1, Ho1, Hr0, Hc0, Hl0, Hc, Hl, Ho.
    by rewrite <- !app_assoc.
  - done.
Qed.

Lemma appends_record_call (c : call) : appends (record_call c).
Proof. intros s. cbn. by rewrite !app_nil_r. Qed.

Lemma appends_write_log (r : log_record) : appends (write_log r).
Proof. intros s. cbn. by rewrite !app_nil_r. Qed.

Lemma appends_when (cond : bool) (body : M unit) :
  appends body → appends (when cond body).
Proof. destruct cond; [done|]. intros _. apply appends_ret. Qed.

Lemma appends_try_except {A B} (body : M A) (handler : Z → M B) (rest : A → M B) :
  appends body → (∀ rc, appends (handler rc)) → (∀ a, appends (rest a)) →
  appends (try_except body handler rest).
Proof.
  intros Hm Hh Hf s. unfold try_except.
  destruct (Hm s) as (Hr & Hc & Hl & Ho).
  destruct (body s) as [[a|e] s1], (body initial) as [[a0|e0] s0];
    cbn in *; simplify_eq.
  - destruct (Hf a0 s1) as (Hr1 & Hc1 & Hl1 & Ho1).
    destruct (Hf a0 s0) as (Hr0 & Hc0 & Hl0 & Ho0).
    rewrite Hr1, Hc1, Hl1, Ho1, Hr0, Hc0, Hl0, Hc, Hl, Ho.
    by rewrite <- !app_assoc.
  - destruct e0 as [| | |rc| | |]; try done.
    destruct (Hh rc s1) as (Hr1 & Hc1 & Hl1 & Ho1).
    destruct (Hh rc s0) as (Hr0 & Hc0 & Hl0 & Ho0).
    rewrite Hr1, Hc1, Hl1, Ho1, Hr0, Hc0, Hl0, Hc, Hl, Ho.
    by rewrite <- !app_assoc.
Qed.
End Appends.



(** ** The functions of [pdf.py] only add to the state *)

Section AppendsFunctions.
Import Py Pdf.
Variable int : str → option Z.
Context `{ScannerAPI}.
Variable w : world.

Lemma appends_get_page_count : appends (get_page_count int w).
Proof.
  unfold get_page_count, check_output.
  apply appends_try_except.
  - apply appends_bind; [apply appends_record_call|]. intros _.
    repeat case_match; first [apply appends_raise | apply appends_ret].
  - intros rc. apply appends_bind; [apply appends_write_log|]. intros _.
    apply appends_ret.
  - intros raw. repeat case_match;
      repeat first [ apply appends_ret | apply appends_raise
                   | apply appends_bind; [apply appends_write_log|intros _] ].
Qed.

Lemma appends_call_pdftohtml (first last : option Z) :
  appends (call_pdftohtml w first last).
Proof.
  intros s.
  unfold call_pdftohtml, when, record_call, write_log, set_index_file,
    get_index_file, raise, lift, mbind, M_bind, mret, M_ret. cbn.
  destruct (bool_decide (is_Some (index_file s))); cbn;
    repeat (first [progress simplify_eq/= | case_match]);
    by rewrite ?app_nil_r, <- ?app_assoc.
Qed.

(** The statements of [get_isbn] between [try] and [finally]. *)
Lemma appends_get_isbn_body (g : globals) :
  appends
    (total_pages ← get_page_count int w;
     bound ←
       match total_pages with
       | Some total_pages =>
           let scanner := BookScanner in
           if total_pages <=? FRONT_PAGES g + BACK_PAGES g then
             text ← call_pdftohtml w None None;
             mret (Some (look_for_identifiers_in_text scanner [text]))
           else
             text ← call_pdftohtml w (Some 1) (Some (FRONT_PAGES g));
             let scanner := look_for_identifiers_in_text scanner [text] in
             if negb (has_identifier scanner) then
               text ← call_pdftohtml w (Some (total_pages - BACK_PAGES g))
                                     (Some total_pages);
               mret (Some (look_for_identifiers_in_text scanner [text]))
             else mret (Some scanner)
       | None => mret None
       end;
     match bound with
     | Some scanner => mret (get_isbn_result scanner)
     | None => raise (UnboundLocalError "scanner")
     end).
Proof.
  apply appends_bind; [apply appends_get_page_count|]. intros total_pages.
  apply appends_bind.
  - destruct total_pages as [total_pages|]; [|apply appends_ret]. cbn zeta.
    destruct (total_pages <=? FRONT_PAGES g + BACK_PAGES g).
    + apply appends_bind; [apply appends_call_pdftohtml|]. intros text.
      apply appends_ret.
    + apply appends_bind; [apply appends_call_pdftohtml|]. intros text.
      destruct (negb (has_identifier (look_for_identifiers_in_text BookScanner [text])));
        [|apply appends_ret].
      apply appends_bind; [apply appends_call_pdftohtml|]. intros text'.
      apply appends_ret.
  - intros [scanner|]; [apply appends_ret|apply appends_raise].
Qed.
End AppendsFunctions.

(** ** [get_isbn]: the log, the number of extractions and the pages covered *)

Section StrategyExtras.
Import Py Pdf.
Variable int : str → option Z.
Context `{ScannerAPI}.
Variable w : world.

(** When no log is passed, [get_isbn] prints its log exactly once, as its
    last step and whether it returns or raises; the printed log holds the
    records of this run only, whatever the state held before. *)
Theorem own_log_is_printed_once_at_the_end (g : globals) (s : state) :
  let run := get_isbn int w g false s in
  stdout run.2 = stdout s ++ [log run.2]
  ∧ log run.2 = log (get_isbn int w g false initial).2
  ∧ run.1 = (get_isbn int w g false initial).1.
Proof.
  unfold get_isbn.
  match goal with |- context [try_finally ?b] => set (body := b) end.
  assert (appends body) as Hbody by apply appends_get_isbn_body.
  clearbody body.
  unfold try_finally, when, new_log, print_log, mbind, M_bind, mret, M_ret. cbn.
  change {| index_file := None; log := []; stdout := []; calls := [] |} with initial.
  destruct (Hbody {| index_file := index_file s; log := []; stdout := stdout s;
                     calls := calls s |}) as (Hr & _ & Hl & Ho).
  destruct (body {| index_file := index_file s; log := []; stdout := stdout s;
                    calls := calls s |}) as [r s1].
  destruct (body initial) as [r0 s0]. cbn in *. by rewrite Ho, Hl, Hr.
Qed.

(** When a log is passed, [get_isbn] prints nothing and only adds
    records to that log; they are the records a run without a passed log
    prints. *)
Theorem passed_log_is_extended_and_not_printed (g : globals) (s : state) :
  let run := get_isbn int w g true s in
  stdout run.2 = stdout s
  ∧ log run.2 = log s ++ log (get_isbn int w g false initial).2
  ∧ run.1 = (get_isbn int w g false initial).1.
Proof.
  unfold get_isbn.
  match goal with |- context [try_finally ?b] => set (body := b) end.
  assert (appends body) as Hbody by apply appends_get_isbn_body.
  clearbody body.
  unfold try_finally, when, new_log, print_log, mbind, M_bind, mret, M_ret. cbn.
  change {| index_file := None; log := []; stdout := []; calls := [] |} with initial.
  destruct (Hbody s) as (Hr & _ & Hl & Ho).
  destruct (body s) as [r s1].
  destruct (body initial) as [r0 s0]. cbn in *. by rewrite Ho, Hl, Hr.
Qed.

(** Whatever the tools deliver, [get_isbn] runs pdfinfo once, before
    anything else, and then pdftohtml at most twice. *)
Theorem one_pdfinfo_then_at_most_two_extractions
    (g : globals) (log_given : bool) (s : state) :
  ∃ r s' issued,
    get_isbn int w g log_given s = (r, s')
    ∧ calls s' = calls s ++ CallPdfinfo :: (uncurry CallPdftohtml <$> issued)
    ∧ (length issued ≤ 2)%nat.
Proof.
  destruct (page_count_outcome int w) as [[total|]|e] eqn:Hpc.
  - destruct (decide (total ≤ FRONT_PAGES g + BACK_PAGES g)) as [Hle|Hgt].
    + destruct (get_isbn_whole int w g log_given s total Hpc Hle) as (s' & Hrun & Hcalls).
      eexists _, s', [(None, None)]. split; [exact Hrun|]. split; [exact Hcalls|].
      cbn. lia.
    + assert (FRONT_PAGES g + BACK_PAGES g < total) as Hlt by lia.
      destruct (get_isbn_windows int w g log_given s total Hpc Hlt)
        as (r & s' & Hrun & Hcases).
      destruct (extraction_outcome w (Some 1) (Some (FRONT_PAGES g))) as [text|e].
      * cbn zeta in Hcases.
        destruct (has_identifier (look_for_identifiers_in_text BookScanner [text]));
          destruct Hcases as [_ Hcalls].
        -- exists r, s', [(Some 1, Some (FRONT_PAGES g))].
           split; [done|]. split; [done|]. cbn. lia.
        -- exists r, s', [(Some 1, Some (FRONT_PAGES g));
                          (Some (total - BACK_PAGES g), Some total)].
           split; [done|]. split; [done|]. cbn. lia.
      * destruct Hcases as [_ Hcalls].
        exists r, s', [(Some 1, Some (FRONT_PAGES g))].
        split; [done|]. split; [done|]. cbn. lia.
  - destruct (get_isbn_unbound int w g log_given s Hpc) as (s' & Hrun & Hcalls).
    eexists _, s', []. split; [exact Hrun|]. split; [exact Hcalls|]. cbn. lia.
  - destruct (get_isbn_page_count_raises int w g log_given s e Hpc)
      as (s' & Hrun & Hcalls).
    eexists _, s', []. split; [exact Hrun|]. split; [exact Hcalls|]. cbn. lia.
Qed.

(** With more than [FRONT_PAGES + BACK_PAGES] pages every range that
    [get_isbn] requests lies within the document, and no page between
    page [FRONT_PAGES] and page [total - BACK_PAGES] is ever extracted. *)
Theorem requested_ranges_leave_out_the_middle
    (log_given : bool) (s : state) (total : Z) :
  page_count_outcome int w = Return (Some total) →
  FRONT_PAGES module_globals + BACK_PAGES module_globals < total →
  ∃ r s' issued,
    get_isbn int w module_globals log_given s = (r, s')
    ∧ extractions (calls s') = extractions (calls s) ++ issued
    ∧ ∀ first last,
        (first, last) ∈ issued →
        ∃ a b, first = Some a ∧ last = Some b
               ∧ 1 ≤ a ∧ a ≤ b ∧ b ≤ total
               ∧ ∀ p, FRONT_PAGES module_globals < p →
                      p < total - BACK_PAGES module_globals →
                      ¬ (a ≤ p ∧ p ≤ b).
Proof.
  intros Hpc Hlt.
  destruct (get_isbn_windows int w module_globals log_given s total Hpc Hlt)
    as (r & s' & Hrun & Hcases).
  assert (∃ issued,
            extractions (calls s') = extractions (calls s) ++ issued
            ∧ (issued = [(Some 1, Some (FRONT_PAGES module_globals))]
               ∨ issued = [(Some 1, Some (FRONT_PAGES module_globals));
                           (Some (total - BACK_PAGES module_globals), Some total)]))
    as (issued & Hcalls & Hissued).
  { destruct (extraction_outcome w (Some 1) (Some (FRONT_PAGES module_globals)))
      as [text|e]; cbn zeta in Hcases;
      [destruct (has_identifier (look_for_identifiers_in_text BookScanner [text]))|];
      destruct Hcases as [_ ->]; rewrite extractions_app; eexists; split;
      first [reflexivity | by left | by right]. }
  exists r, s', issued. split; [done|]. split; [done|].
  cbn in Hlt. intros first last Hin.
  destruct Hissued as [-> | ->].
  - apply list_elem_of_singleton in Hin as [= -> ->].
    exists 1, 25. cbn. repeat split; try done; lia.
  - apply elem_of_cons in Hin as [[= -> ->]|Hin].
    + exists 1, 25. cbn. repeat split; try done; lia.
    + apply list_elem_of_singleton in Hin as [= -> ->].
      exists (total - 15), total. cbn. repeat split; try done; lia.
Qed.

(** When pdfinfo cannot be started, the [OSError] leaves [get_page_count]
    and [get_isbn] unchanged, and no text is extracted. *)
Theorem pdfinfo_start_failure_propagates
    (g : globals) (log_given : bool) (s : state) (errno : Z) :
  pdfinfo_spawn_error (pdfinfo w) = Some errno →
  page_count_outcome int w = Raise (OSError errno)
  ∧ ∃ s', get_isbn int w g log_given s = (Raise (OSError errno), s')
          ∧ extractions (calls s') = extractions (calls s).
Proof.
  intros Hspawn.
  assert (page_count_outcome int w = Raise (OSError errno)) as Hpc
    by (by rewrite page_count_outcome_eq, Hspawn).
  split; [exact Hpc|].
  destruct (get_isbn_page_count_raises int w g log_given s _ Hpc) as (s' & Hrun & Hcalls).
  exists s'. split; [done|]. rewrite Hcalls, extractions_app. cbn. by rewrite app_nil_r.
Qed.

(** When the value of the Pages line is not accepted by [int], the
    [ValueError] leaves [get_page_count] and [get_isbn], and no text is
    extracted. *)
Theorem page_count_that_is_no_integer_raises
    (g : globals) (log_given : bool) (s : state)
    (raw : str) (before after : list str) (val : str) :
  pdfinfo_spawn_error (pdfinfo w) = None →
  pdfinfo_returncode (pdfinfo w) = 0 →
  decode_utf8 (pdfinfo_stdout (pdfinfo w)) = Some raw →
  splitlines raw = before ++ (u "Pages" ++ 58%N :: val) :: after →
  strip val ≠ [] →
  (∀ v, u "Pages" ++ 58%N :: v ∈ after → strip v = []) →
  int (strip val) = None →
  page_count_outcome int w = Raise ValueError
  ∧ ∃ s', get_isbn int w g log_given s = (Raise ValueError, s')
          ∧ extractions (calls s') = extractions (calls s).
Proof.
  intros Hspawn Hrc Hraw Hlines Hval Hlast Hint.
  assert (page_count_outcome int w = Raise ValueError) as Hpc.
  { rewrite page_count_outcome_eq, Hspawn, Hrc, Hraw. cbn.
    unfold info_dict. rewrite Hlines, foldl_app. cbn [foldl].
    rewrite lookup_foldl_miss.
    - rewrite lookup_add_field_hit; [by rewrite Hint|done|done|done].
    - intros line v Hin ->. by apply Hlast. }
  split; [exact Hpc|].
  destruct (get_isbn_page_count_raises int w g log_given s _ Hpc) as (s' & Hrun & Hcalls).
  exists s'. split; [done|]. rewrite Hcalls, extractions_app. cbn. by rewrite app_nil_r.
Qed.
End StrategyExtras.

(** ** [get_page_count] and [call_pdftohtml]: more error and edge behaviour *)

Section ToolExtras.
Import Py Pdf.
Variable int : str → option Z.
Variable w : world.

Lemma partition_found_first (c : N) (s : str) :
  contains c s = true →
  ∃ h t, partition c s = (h, [c], t) ∧ s = h ++ c :: t ∧ contains c h = false.
Proof.
  induction s as [|x s IH]; cbn; [done|].
  unfold N_is. rewrite (N.eqb_sym c x). destruct (x =? c)%N eqn:Hx.
  - intros _. apply N.eqb_eq in Hx as ->. by exists [], s.
  - cbn. intros Hc. destruct (IH Hc) as (h & t & -> & -> & Hh).
    exists (x :: h), t. repeat split. cbn. unfold N_is.
    by rewrite (N.eqb_sym c x), Hx.
Qed.

Lemma add_field_entry (ans : gmap str str) (line k v : str) :
  add_field ans line !! k = Some v →
  ans !! k = Some v
  ∨ (k ≠ [] ∧ contains 58 k = false ∧ v ≠ [] ∧ strip v = v
     ∧ ∃ val, line = k ++ 58%N :: val ∧ v = strip val).
Proof.
  unfold add_field. destruct (contains 58 line) eqn:Hc; cbn; [|by left].
  destruct (partition_found_first _ _ Hc) as (h & t & -> & -> & Hh).
  destruct (truthy h && truthy (strip t)) eqn:Ht; [|by left].
  apply andb_prop in Ht as [Hh' Ht']. apply truthy_true in Hh', Ht'.
  destruct (decide (h = k)) as [->|Hne]; [|rewrite lookup_insert_ne by done; by left].
  rewrite lookup_insert_eq, strip_idemp. intros [= <-]. right.
  repeat split; try done; [apply strip_idemp|by exists t].
Qed.

(** Every entry of the dictionary that [get_page_count] builds from the
    output of pdfinfo has a non-empty field name without a colon and a
    non-empty value without white space at either end, and comes from a
    line that reads field, colon, value. *)
Theorem info_dict_entries (raw k v : str) :
  info_dict raw !! k = Some v →
  k ≠ [] ∧ contains 58 k = false ∧ v ≠ [] ∧ strip v = v
  ∧ ∃ val, k ++ 58%N :: val ∈ splitlines raw ∧ v = strip val.
Proof.
  unfold info_dict.
  assert (∀ (lines : list str) (ans : gmap str str),
            foldl add_field ans lines !! k = Some v →
            ans !! k = Some v
            ∨ (k ≠ [] ∧ contains 58 k = false ∧ v ≠ [] ∧ strip v = v
               ∧ ∃ val, k ++ 58%N :: val ∈ lines ∧ v = strip val)) as Hfold.
  { induction lines as [|line lines IH]; intros ans Hk; [by left|].
    cbn in Hk. destruct (IH _ Hk) as [Hstep|(? & ? & ? & ? & val & Hin & ?)].
    - destruct (add_field_entry _ _ _ _ Hstep)
        as [Hans|(? & ? & ? & ? & val & -> & ?)]; [by left|].
      right. repeat split; try done. exists val. split; [by left|done].
    - right. repeat split; try done. exists val. split; [by right|done]. }
  intros Hk. destruct (Hfold _ _ Hk) as [Hempty|Hentry]; [|done].
  by rewrite lookup_empty in Hempty.
Qed.

Lemma wait_interrupted (n : nat) (errors : list Z) (ret : Z) :
  wait (replicate n EINTR ++ errors) ret = wait errors ret.
Proof. induction n as [|n IH]; [done|]. cbn. exact IH. Qed.

(** Interruptions of [p.wait()] by EINTR, however many, do not change
    what [call_pdftohtml] delivers: a run that differs from another one
    only by such interruptions gives the same text or the same error. *)
Theorem interrupted_waits_are_retried
    (w' : world) (first last : option Z) (n : nat) :
  popen_error (pdftohtml w first last) = popen_error (pdftohtml w' first last) →
  returncode (pdftohtml w first last) = returncode (pdftohtml w' first last) →
  logfile (pdftohtml w first last) = logfile (pdftohtml w' first last) →
  index_xml (pdftohtml w first last) = index_xml (pdftohtml w' first last) →
  wait_errors (pdftohtml w first last)
    = replicate n EINTR ++ wait_errors (pdftohtml w' first last) →
  extraction_outcome w first last = extraction_outcome w' first last.
Proof.
  intros Hpopen Hret Hlog Hindex Hwait.
  unfold extraction_outcome, call_pdftohtml, when, record_call, write_log,
    set_index_file, get_index_file, raise, lift, mbind, M_bind, mret, M_ret.
  cbn. by rewrite Hpopen, Hwait, wait_interrupted, Hret, Hlog, Hindex.
Qed.

(** An [OSError] of [popen] other than ENOENT, and an [OSError] of
    [p.wait()] other than EINTR, leave [call_pdftohtml] unchanged. *)
Theorem other_os_errors_are_raised_unchanged (first last : option Z) (s : state) :
  let run := pdftohtml w first last in
  let r := (call_pdftohtml w first last s).1 in
  (∀ errno, popen_error run = Some errno → errno ≠ ENOENT → r = Raise (OSError errno))
  ∧ (∀ (n : nat) (errno : Z) (rest : list Z),
       popen_error run = None →
       wait_errors run = replicate n EINTR ++ errno :: rest →
       errno ≠ EINTR →
       r = Raise (OSError errno)).
Proof.
  intros run r. subst r.
  destruct (call_pdftohtml_run w first last s) as (s' & -> & _). cbn [fst].
  unfold extraction_outcome, call_pdftohtml, when, record_call, write_log,
    set_index_file, get_index_file, raise, lift, mbind, M_bind, mret, M_ret.
  fold run. cbn. split.
  - intros errno -> Hne. apply Z.eqb_neq in Hne. by rewrite Hne.
  - intros n errno rest -> -> Hne. rewrite wait_interrupted. cbn.
    apply Z.eqb_neq in Hne. by rewrite Hne.
Qed.

(** What pdftohtml wrote to its log file is never lost: when the process
    exits with a non-zero code it travels in the [ConversionError] and the
    log is left alone; when it exits with 0 and wrote something, two
    records are added to the log, whatever happens to [index.xml]. *)
Theorem tool_output_is_raised_or_logged (first last : option Z) (s : state) (ret : Z) :
  let run := pdftohtml w first last in
  let out := bytes_strip (logfile run) in
  popen_error run = None →
  wait (wait_errors run) (returncode run) = Return ret →
  (ret ≠ 0 →
     (call_pdftohtml w first last s).1 = Raise (ConversionError (Output out))
     ∧ log (call_pdftohtml w first last s).2 = log s)
  ∧ (ret = 0 → out ≠ [] →
     log (call_pdftohtml w first last s).2
     = log s ++ [LogPlain PdftohtmlLog; LogPlain (Raw out)])
  ∧ (ret = 0 → out = [] → log (call_pdftohtml w first last s).2 = log s).
Proof.
  intros run out Hpopen Hwait.
  unfold call_pdftohtml, when, record_call, write_log,
    set_index_file, get_index_file, raise, lift, mbind, M_bind, mret, M_ret.
  fold run. cbn. rewrite Hpopen, Hwait. fold out.
  destruct (bool_decide (is_Some (index_file s))); cbn.
  all: split; [|split].
  all: try (intros Hret; apply Z.eqb_neq in Hret; by rewrite Hret).
  all: intros -> Hout; cbn.
  all: try (apply truthy_true in Hout; rewrite Hout; cbn).
  all: try (rewrite Hout; cbn).
  all: repeat case_match; cbn; by rewrite <- ?app_assoc.
Qed.

Lemma join_or_empty (texts : list (option str)) :
  join (or_empty <$> texts) = concat (omap id texts).
Proof.
  unfold join. induction texts as [|[text|] texts IH]; cbn; [done| |done].
  by rewrite IH.
Qed.

(** When pdftohtml exits with 0 and leaves an [index.xml] of at least 100
    bytes that can be parsed, [call_pdftohtml] returns the texts of its
    [text] elements, in order, elements without text being skipped; a file
    without any text gives the empty string, not an error. *)
Theorem text_is_the_concatenation_of_the_element_texts
    (first last : option Z) (s : state) (f : IndexFile) (texts : list (option str)) :
  popen_error (pdftohtml w first last) = None →
  wait (wait_errors (pdftohtml w first last)) (returncode (pdftohtml w first last))
    = Return 0 →
  index_xml (pdftohtml w first last) = Some f →
  100 ≤ st_size f →
  text_elements f = Return texts →
  (call_pdftohtml w first last s).1 = Return (concat (omap id texts))
  ∧ (Forall (λ text, text = None) texts → (call_pdftohtml w first last s).1 = Return []).
Proof.
  intros Hpopen Hwait Hindex Hsize Htexts.
  assert ((call_pdftohtml w first last s).1 = Return (concat (omap id texts))) as Hr.
  { destruct (call_pdftohtml_run w first last s) as (s' & -> & _). cbn [fst].
    unfold extraction_outcome, call_pdftohtml, when, record_call, write_log,
      set_index_file, get_index_file, raise, lift, mbind, M_bind, mret, M_ret.
    cbn. rewrite Hpopen, Hwait. cbn.
    apply Z.ltb_ge in Hsize.
    destruct (truthy (bytes_strip (logfile (pdftohtml w first last)))); cbn;
      rewrite Hindex, Hsize, Htexts; cbn; by rewrite join_or_empty. }
  split; [exact Hr|]. intros Hnone. rewrite Hr. f_equal.
  clear Hr Htexts. induction Hnone as [|text texts' -> _ IH]; [done|]. exact IH.
Qed.
End ToolExtras.

(** * Further properties of [config.py] *)

Section ConfigExtras.
Import Py Config.

Lemma split_nonempty (c : N) (s : str) : split c s ≠ [].
Proof. destruct s as [|x r]; cbn; [done|]. by repeat case_match. Qed.

Lemma join_with_split (c : N) (s : str) : join_with c (split c s) = s.
Proof.
  induction s as [|x r IH]; [done|]. cbn. unfold N_is.
  destruct (x =? c)%N eqn:Hx.
  - apply N.eqb_eq in Hx as ->. pose proof (split_nonempty c r) as Hne.
    destruct (split c r) as [|h t]; [done|]. cbn in *. by rewrite IH.
  - destruct (split c r) as [|h t] eqn:Hs; [by destruct (split_nonempty c r)|].
    cbn in *. destruct t; cbn in *; by rewrite <- IH.
Qed.

Lemma split_app_sep (c : N) (h t : str) :
  contains c h = false → split c (h ++ c :: t) = h :: split c t.
Proof.
  induction h as [|x h IH]; cbn.
  - intros _. unfold N_is. by rewrite N.eqb_refl.
  - unfold N_is. rewrite (N.eqb_sym c x). destruct (x =? c)%N; [done|]. cbn.
    intros Hh. by rewrite (IH Hh).
Qed.

Lemma split_clean (c : N) (h : str) : contains c h = false → split c h = [h].
Proof.
  induction h as [|x h IH]; cbn; [done|].
  unfold N_is. rewrite (N.eqb_sym c x). destruct (x =? c)%N; [done|]. cbn.
  intros Hh. by rewrite (IH Hh).
Qed.

Lemma split_join_with (c : N) (l : list str) :
  l ≠ [] → Forall (λ part, contains c part = false) l →
  split c (join_with c l) = l.
Proof.
  induction l as [|part rest IH]; [done|]. intros _ Hclean.
  apply Forall_cons in Hclean as [Hpart Hrest].
  destruct rest as [|part' rest']; [by apply split_clean|].
  change (join_with c (part :: part' :: rest'))
    with (part ++ c :: join_with c (part' :: rest')).
  rewrite (split_app_sep _ _ _ Hpart). f_equal. by apply IH.
Qed.

Lemma contains_cons (c x : N) (s : str) :
  contains c (x :: s) = N_is c x || contains c s.
Proof. done. Qed.

Lemma remove_char_clean (c : N) (s : str) :
  contains c s = false → remove_char c s = s.
Proof.
  unfold remove_char. induction s as [|x s IH]; [done|].
  rewrite contains_cons. intros Hs. apply orb_false_elim in Hs as [Hx Hs].
  apply N.eqb_neq in Hx. rewrite filter_cons_True by congruence.
  by rewrite (IH Hs).
Qed.

Lemma contains_remove_char (c : N) (s : str) : contains c (remove_char c s) = false.
Proof.
  unfold remove_char. induction s as [|x s IH]; [done|].
  destruct (decide (x = c)) as [->|Hne].
  - by rewrite filter_cons_False by (intros Hf; by apply Hf).
  - rewrite filter_cons_True by done. rewrite contains_cons, IH.
    unfold N_is. apply not_eq_sym, N.eqb_neq in Hne. by rewrite Hne.
Qed.

Lemma mapM_as_str (l : list str) : mapM as_str (VStr <$> l) = Some l.
Proof. apply mapM_Some. induction l; constructor; done. Qed.

(** Saving and opening the dialog again shows the prefix field as it was
    typed, blanks removed: [__init__] joins what [save_settings] split. *)
Theorem saved_prefixes_reopen_as_typed (self : ConfigWidget) (prefs : JSONConfig) :
  init_isbn13_ledit_text (save_settings self prefs)
  = Some (remove_char 32 (isbn13_ledit_text self)).
Proof.
  unfold init_isbn13_ledit_text. rewrite save_settings_stores_prefixes. cbn.
  by rewrite mapM_as_str; cbn; rewrite join_with_split.
Qed.

Lemma contains_join_with (c sep : N) (l : list str) :
  c ≠ sep → Forall (λ part, contains c part = false) l →
  contains c (join_with sep l) = false.
Proof.
  intros Hne. induction l as [|part rest IH]; [done|]. intros Hclean.
  apply Forall_cons in Hclean as [Hpart Hrest].
  destruct rest as [|part' rest']; [done|].
  change (join_with sep (part :: part' :: rest'))
    with (part ++ sep :: join_with sep (part' :: rest')).
  unfold contains in *. rewrite existsb_app. cbn [existsb].
  rewrite Hpart, (IH Hrest). unfold N_is. apply N.eqb_neq in Hne. by rewrite Hne.
Qed.

Lemma split_parts_without (c d : N) (s : str) :
  contains d s = false → Forall (λ part, contains d part = false) (split c s).
Proof.
  induction s as [|x s IH]; [by repeat constructor|].
  rewrite contains_cons. intros Hs. apply orb_false_elim in Hs as [Hx Hs].
  specialize (IH Hs). cbn. destruct (N_is x c).
  - by constructor.
  - destruct (split c s) as [|h t]; [by repeat constructor; rewrite contains_cons, Hx|].
    apply Forall_cons in IH as [Hh Ht]. constructor; [|done].
    by rewrite contains_cons, Hx.
Qed.

Lemma split_parts_clean (c : N) (s : str) :
  Forall (λ part, contains c part = false) (split c s).
Proof.
  induction s as [|x s IH]; [by repeat constructor|]. cbn.
  destruct (N_is x c) eqn:Hx; [by constructor|].
  destruct (split c s) as [|h t] eqn:Hs; [by destruct (split_nonempty c s)|].
  apply Forall_cons in IH as [Hh Ht]. constructor; [|done].
  rewrite contains_cons, Hh. unfold N_is in *. by rewrite N.eqb_sym, Hx.
Qed.

(** Opening the dialog on a stored list of prefixes and saving it as shown
    stores the same list, provided the list is not empty and no prefix
    holds a comma or a blank. *)
Theorem reopened_prefixes_are_saved_unchanged
    (prefs prefs' : JSONConfig) (self : ConfigWidget) (l : list str) :
  read_prefixes prefs = Some (VList (VStr <$> l)) →
  l ≠ [] →
  Forall (λ part, contains 44 part = false) l →
  Forall (λ part, contains 32 part = false) l →
  init_isbn13_ledit_text prefs = Some (isbn13_ledit_text self) →
  read_prefixes (save_settings self prefs') = Some (VList (VStr <$> l)).
Proof.
  intros Hread Hne Hcomma Hblank Hshown.
  unfold init_isbn13_ledit_text in Hshown. rewrite Hread in Hshown. cbn in Hshown.
  rewrite mapM_as_str in Hshown. cbn in Hshown. injection Hshown as Hshown.
  rewrite save_settings_stores_prefixes, <- Hshown.
  rewrite remove_char_clean by (by apply contains_join_with).
  by rewrite split_join_with.
Qed.

(** What [save_settings] stores as prefixes is never an empty list, and
    no stored prefix holds a comma or a blank; a prefix field left empty or
    blank is stored as one empty prefix. *)
Theorem saved_prefixes_shape (self : ConfigWidget) (prefs : JSONConfig) :
  ∃ l, read_prefixes (save_settings self prefs) = Some (VList (VStr <$> l))
       ∧ l ≠ []
       ∧ Forall (λ part, contains 44 part = false ∧ contains 32 part = false) l
       ∧ (remove_char 32 (isbn13_ledit_text self) = [] → l = [[]]).
Proof.
  exists (split 44 (remove_char 32 (isbn13_ledit_text self))).
  split; [apply save_settings_stores_prefixes|]. split; [apply split_nonempty|].
  split; [|by intros ->].
  apply Forall_and. split; [apply split_parts_clean|].
  apply split_parts_without, contains_remove_char.
Qed.

(** While the preference file holds no options, or options without the
    prefix key, the prefixes read are the defaults and the dialog shows
    977,978,979. *)
Theorem missing_prefix_setting_reads_as_default (file : gmap str dict) :
  file !! STORE_NAME = None
  ∨ (∃ c, file !! STORE_NAME = Some c ∧ c !! KEY_VALID_ISBN13_PREFIX = None) →
  read_prefixes (plugin_prefs file)
    = Some (VList [VStr (u "977"); VStr (u "978"); VStr (u "979")])
  ∧ init_isbn13_ledit_text (plugin_prefs file) = Some (u "977,978,979").
Proof.
  intros Hmissing.
  assert (read_prefixes (plugin_prefs file)
          = Some (VList [VStr (u "977"); VStr (u "978"); VStr (u "979")])) as Hread.
  { unfold read_prefixes, getitem, plugin_prefs, get. cbn [stored defaults].
    destruct Hmissing as [Hnone|(c & Hstore & Hkey)].
    - rewrite Hnone, lookup_insert_eq. by vm_compute.
    - rewrite Hstore. cbn [mbind option_bind]. rewrite Hkey. by vm_compute. }
  split; [exact Hread|]. unfold init_isbn13_ledit_text. rewrite Hread. by vm_compute.
Qed.

(** [save_settings] replaces the stored options instead of merging into
    them: afterwards the store holds the four settings of the widget and
    no other key, whatever it held before; the stores under other names
    are left as they were. *)
Theorem save_settings_replaces_the_store (self : ConfigWidget) (prefs : JSONConfig) :
  ∃ c, getitem (save_settings self prefs) STORE_NAME = Some c
       ∧ c !! KEY_POST_TASK = Some (VStr (showCombo_selected_key self))
       ∧ c !! KEY_VALID_ISBN13_PREFIX
         = Some (VList (VStr <$> split 44 (remove_char 32 (isbn13_ledit_text self))))
       ∧ c !! KEY_WORKER_THRESHOLD = Some (VInt (threshold_spin_value self))
       ∧ c !! KEY_BATCH_SIZE = Some (VInt (batch_spin_value self))
       ∧ (∀ key, is_Some (c !! key) →
            key ∈ [KEY_POST_TASK; KEY_VALID_ISBN13_PREFIX;
                   KEY_WORKER_THRESHOLD; KEY_BATCH_SIZE])
       ∧ ∀ name, name ≠ STORE_NAME →
           getitem (save_settings self prefs) name = getitem prefs name.
Proof.
  unfold save_settings, getitem, setitem. cbn [stored defaults].
  rewrite lookup_insert_eq. eexists. split; [reflexivity|].
  split; [by repeat (rewrite lookup_insert_ne by (by vm_compute)); rewrite lookup_insert_eq|].
  split; [by repeat (rewrite lookup_insert_ne by (by vm_compute)); rewrite lookup_insert_eq|].
  split; [by repeat (rewrite lookup_insert_ne by (by vm_compute)); rewrite lookup_insert_eq|].
  split; [by rewrite lookup_insert_eq|].
  split.
  - intros key [v Hkey].
    repeat (apply lookup_insert_Some in Hkey as [[<- _]|[_ Hkey]];
            [set_solver|]).
    by rewrite lookup_empty in Hkey.
  - intros name Hne. by rewrite lookup_insert_ne.
Qed.
End ConfigExtras.

(** * Properties of [dialogs.py] *)

Section DialogFacts.
Import Py Dialogs.
Variable lib : library.

Lemma outward_app (es es' : list effect) : outward (es ++ es') = outward es ++ outward es'.
Proof. apply filter_app. Qed.

Lemma examine_book_step (d : dialog) (id : Z) :
  book_ids d !! i d = Some id →
  ∃ d', examine_book lib d = Done d'
        ∧ book_ids d' = book_ids d ∧ gui d' = gui d ∧ i d' = S (i d)
        ∧ books_to_scan d' = books_to_scan d ++ option_list (queued_of lib id)
        ∧ failed_ids d' = failed_ids d ++ option_list (failed_of lib id)
        ∧ no_format_ids d' = no_format_ids d ++ option_list (no_format_of lib id)
        ∧ outward (effects d') = outward (effects d).
Proof.
  intros Hid. unfold examine_book, queued_of, failed_of, no_format_of, verdict_of.
  rewrite Hid.
  destruct (get_metadata lib id) as [mi|e]; cbn.
  - destruct (truthy (default [] (formats mi))); cbn.
    + destruct (paths_for lib id _) as [paths|e]; cbn;
        eexists; (split; [reflexivity|]); cbn;
        rewrite ?outward_app, ?app_nil_r; repeat split; done.
    + eexists; (split; [reflexivity|]); cbn.
      rewrite ?outward_app, ?app_nil_r; repeat split; done.
  - eexists; (split; [reflexivity|]); cbn.
    rewrite ?outward_app, ?app_nil_r; repeat split; done.
Qed.

Lemma do_book_runs (fuel : nat) (d : dialog) :
  (i d < length (book_ids d))%nat →
  (length (book_ids d) - i d ≤ fuel)%nat →
  ∃ d', do_book lib fuel d = Some (Done (do_queue d'))
        ∧ book_ids d' = book_ids d ∧ gui d' = gui d
        ∧ i d' = length (book_ids d)
        ∧ books_to_scan d'
          = books_to_scan d ++ omap (queued_of lib) (drop (i d) (book_ids d))
        ∧ failed_ids d'
          = failed_ids d ++ omap (failed_of lib) (drop (i d) (book_ids d))
        ∧ no_format_ids d'
          = no_format_ids d ++ omap (no_format_of lib) (drop (i d) (book_ids d))
        ∧ outward (effects d') = outward (effects d).
Proof.
  revert d. induction fuel as [|fuel IH]; intros d Hlt Hfuel; [lia|].
  destruct (lookup_lt_is_Some_2 _ _ Hlt) as [id Hid].
  destruct (examine_book_step d id Hid)
    as (d1 & Hstep & Hids & Hgui & Hi & Hbooks & Hfailed & Hnone & Hout).
  cbn [do_book]. rewrite Hstep.
  rewrite (drop_S _ _ _ Hid). cbn [omap].
  assert (∀ {A} (f : Z → option A) (l : list Z),
            omap f (id :: l) = option_list (f id) ++ omap f l) as Homap.
  { intros A f l. cbn. by destruct (f id). }
  rewrite !Homap.
  destruct (bool_decide (length (book_ids d1) ≤ i d1)%nat) eqn:Hlast.
  - apply bool_decide_eq_true in Hlast.
    assert (drop (S (i d)) (book_ids d) = []) as ->
      by (apply drop_ge; rewrite <- Hids, <- Hi; lia).
    exists d1. cbn. rewrite !app_nil_r.
    repeat split; try done. rewrite Hids in Hlast. lia.
  - apply bool_decide_eq_false in Hlast.
    destruct (IH d1) as (d' & Hrun & Hids' & Hgui' & Hi' & Hbooks' & Hfailed' & Hnone' & Hout');
      [rewrite Hids in *; lia|rewrite Hids in *; lia|].
    exists d'. rewrite Hrun, Hids', Hgui', Hi', Hbooks', Hfailed', Hnone', Hout'.
    rewrite Hids, Hgui, Hi, Hbooks, Hfailed, Hnone, Hout.
    by rewrite <- !app_assoc.
Qed.
End DialogFacts.

Section DialogExtras.
Import Py Dialogs.
Variable lib : library.

Lemma do_queue_keeps_lists (d : dialog) :
  books_to_scan (do_queue d) = books_to_scan d
  ∧ failed_ids (do_queue d) = failed_ids d
  ∧ no_format_ids (do_queue d) = no_format_ids d
  ∧ i (do_queue d) = i d.
Proof.
  unfold do_queue. destruct (gui d); cbn; [|done].
  destruct (bool_decide (books_to_scan d = [])); cbn;
    destruct (truthy (books_to_scan d)); done.
Qed.

Lemma queued_or_failed (ids : list Z) :
  (length (omap (queued_of lib) ids) + length (omap (failed_of lib) ids))%nat
  = length ids.
Proof.
  induction ids as [|id ids IH]; [done|]. cbn.
  unfold queued_of, failed_of in *. destruct (verdict_of lib id); cbn; lia.
Qed.

(** For a selection that is not empty, [length book_ids] timer shots of
    [do_book] reach [do_queue]; each selected book is then, in the order of
    the selection, either in [books_to_scan] or in [failed_ids], the books
    without format being also in [no_format_ids]. *)
Theorem every_selected_book_is_queued_or_failed (gui_given : bool) (ids : list Z) :
  ids ≠ [] →
  ∃ d, do_book lib (length ids) (init gui_given ids) = Some (Done d)
       ∧ books_to_scan d = omap (queued_of lib) ids
       ∧ failed_ids d = omap (failed_of lib) ids
       ∧ no_format_ids d = omap (no_format_of lib) ids
       ∧ (length (books_to_scan d) + length (failed_ids d))%nat = length ids
       ∧ no_format_ids d ⊆ failed_ids d.
Proof.
  intros Hne.
  destruct (do_book_runs lib (length ids) (init gui_given ids))
    as (d' & Hrun & _ & _ & _ & Hbooks & Hfailed & Hnone & _).
  { cbn. destruct ids; [done|cbn; lia]. }
  { cbn. lia. }
  cbn in Hbooks, Hfailed, Hnone.
  destruct (do_queue_keeps_lists d') as (Hb & Hf & Hn & _).
  exists (do_queue d'). rewrite Hb, Hf, Hn, Hbooks, Hfailed, Hnone.
  repeat split; try done; [apply queued_or_failed|].
  intros entry Hin. apply list_elem_of_omap in Hin as (id & Hid & Hentry).
  apply list_elem_of_omap. exists id. split; [done|].
  unfold no_format_of, failed_of in *. by destruct (verdict_of lib id).
Qed.

(** At the end of a selection that is not empty, the dialog is hidden and
    then either [queue] is called, once, with the three lists, or, when no
    book could be queued, the warning is shown and [queue] is not called;
    [self.gui] is cleared. *)
Theorem queue_is_called_once_or_the_warning_is_shown (ids : list Z) :
  ids ≠ [] →
  ∃ d, do_book lib (length ids) (init true ids) = Some (Done d)
       ∧ gui d = false
       ∧ outward (effects d)
         = Hide :: (if bool_decide (omap (queued_of lib) ids = [])
                    then [WarningDialog]
                    else [Queue (books_to_scan d) (failed_ids d) (no_format_ids d)]).
Proof.
  intros Hne.
  destruct (do_book_runs lib (length ids) (init true ids))
    as (d' & Hrun & _ & Hgui & _ & Hbooks & _ & _ & Hout).
  { cbn. destruct ids; [done|cbn; lia]. }
  { cbn. lia. }
  cbn in Hbooks, Hgui, Hout.
  destruct (do_queue_keeps_lists d') as (Hb & Hf & Hn & _).
  exists (do_queue d'). split; [done|]. rewrite Hb, Hf, Hn.
  change (drop 0 ids) with ids in Hbooks. rewrite <- Hbooks.
  unfold do_queue. rewrite Hgui. cbn.
  destruct (books_to_scan d') as [|book books] eqn:Hbs.
  - rewrite !bool_decide_eq_true_2 by done. cbn. rewrite !Hbs. cbn.
    split; [done|]. by rewrite !outward_app, Hout.
  - rewrite !bool_decide_eq_false_2 by done. cbn. rewrite !Hbs. cbn.
    split; [done|]. by rewrite !outward_app, Hout.
Qed.

(** [do_queue] acts once: it clears [self.gui], and a call that finds
    [self.gui] cleared changes nothing, so that a second call neither
    shows the warning nor calls [queue] again. *)
Theorem do_queue_acts_once (d : dialog) :
  gui (do_queue d) = false
  ∧ (gui d = false → do_queue d = d)
  ∧ do_queue (do_queue d) = do_queue d.
Proof.
  assert (gui (do_queue d) = false) as Hcleared.
  { unfold do_queue. destruct (gui d) eqn:Hgui; cbn; [|done].
    destruct (bool_decide (books_to_scan d = [])); cbn;
      by destruct (truthy (books_to_scan d)). }
  assert (∀ d0, gui d0 = false → do_queue d0 = d0) as Hnoop.
  { intros d0 Hgui. unfold do_queue. by rewrite Hgui. }
  split; [done|]. split; [apply Hnoop|]. by apply Hnoop.
Qed.

(** With an empty selection the first [do_book] raises [IndexError] at
    [self.book_ids[self.i]]: [do_queue] is not reached and the warning for
    a selection without formats is not shown. *)
Theorem empty_selection_raises_index_error (gui_given : bool) (fuel : nat) :
  fuel ≠ 0%nat →
  do_book lib fuel (init gui_given []) = Some (Raised IndexError).
Proof. destruct fuel; [done|]. by intros _. Qed.
End DialogExtras.

(** * The further properties at concrete inputs *)

Section MoreWitnesses.
Import Py Pdf Worlds.

Lemma requested_ranges_leave_out_the_middle_witness :
  page_count_outcome decimal_int (document "200" plain_text back_text) = Return (Some 200)
  ∧ FRONT_PAGES module_globals + BACK_PAGES module_globals < 200
  ∧ ∃ r s' issued,
      get_isbn (H := default_scanner) decimal_int (document "200" plain_text back_text)
        module_globals false initial = (r, s')
      ∧ extractions (calls s') = issued
      ∧ ∀ first last, (first, last) ∈ issued →
          ∃ a b, first = Some a ∧ last = Some b ∧ ¬ (a ≤ 100 ∧ 100 ≤ b).
Proof.
  assert (page_count_outcome decimal_int (document "200" plain_text back_text)
          = Return (Some 200)) as Hpc by (vm_compute; reflexivity).
  assert (FRONT_PAGES module_globals + BACK_PAGES module_globals < 200) as Hlt
    by reflexivity.
  split; [exact Hpc|]. split; [exact Hlt|].
  destruct (requested_ranges_leave_out_the_middle decimal_int (H := default_scanner)
              _ false initial 200 Hpc Hlt) as (r & s' & issued & Hrun & Hcalls & Hin).
  exists r, s', issued. split; [exact Hrun|]. split; [exact Hcalls|].
  intros first last Hfl. destruct (Hin first last Hfl) as (a & b' & -> & -> & _ & _ & _ & Hmid).
  exists a, b'. split; [done|]. split; [done|]. apply Hmid; reflexivity.
Defined.

Lemma pdfinfo_start_failure_propagates_witness :
  pdfinfo_spawn_error (pdfinfo no_pdfinfo) = Some ENOENT
  ∧ page_count_outcome decimal_int no_pdfinfo = Raise (OSError ENOENT).
Proof.
  split; [reflexivity|].
  exact (proj1 (pdfinfo_start_failure_propagates decimal_int (H := default_scanner)
                  no_pdfinfo module_globals false initial ENOENT eq_refl)).
Defined.

Lemma page_count_that_is_no_integer_raises_witness :
  page_count_outcome decimal_int (document "many" plain_text back_text) = Raise ValueError.
Proof.
  refine (proj1 (page_count_that_is_no_integer_raises decimal_int (H := default_scanner)
                   (document "many" plain_text back_text) module_globals false initial
                   (u (info "many")) [u "Title:          A book"]
                   [u "Encrypted:      no"] (u "          many") _ _ _ _ _ _ _)).
  - reflexivity.
  - reflexivity.
  - by vm_compute.
  - by vm_compute.
  - by vm_compute.
  - intros v Hin. apply list_elem_of_singleton in Hin. discriminate Hin.
  - by vm_compute.
Defined.

Lemma info_dict_entries_witness :
  info_dict (u (info "200")) !! u "Pages" = Some (u "200")
  ∧ ∃ val, u "Pages" ++ 58%N :: val ∈ splitlines (u (info "200")) ∧ u "200" = strip val.
Proof.
  assert (info_dict (u (info "200")) !! u "Pages" = Some (u "200")) as Hpages
    by (by vm_compute).
  split; [exact Hpages|].
  exact (proj2 (proj2 (proj2 (proj2 (info_dict_entries _ _ _ Hpages))))).
Defined.

Lemma interrupted_waits_are_retried_witness :
  extraction_outcome (converter (run_interrupted front_text)) None None
  = extraction_outcome (converter (run_text front_text)) None None.
Proof.
  apply (interrupted_waits_are_retried (converter (run_interrupted front_text))
           (converter (run_text front_text)) None None 2); reflexivity.
Defined.

Lemma other_os_errors_are_raised_unchanged_witness :
  (call_pdftohtml (converter run_forbidden) None None initial).1 = Raise (OSError 13)
  ∧ (call_pdftohtml (converter run_lost) (Some 1) (Some 25) initial).1 = Raise (OSError 10).
Proof.
  split.
  - destruct (other_os_errors_are_raised_unchanged (converter run_forbidden)
                None None initial) as [Hpopen _].
    apply Hpopen; [reflexivity|discriminate].
  - destruct (other_os_errors_are_raised_unchanged (converter run_lost)
                (Some 1) (Some 25) initial) as [_ Hwait].
    apply (Hwait 1%nat 10 []); [reflexivity|reflexivity|discriminate].
Defined.

Lemma tool_output_is_raised_or_logged_witness :
  ((call_pdftohtml (converter (run_exit 1 "Syntax Error")) None None initial).1
   = Raise (ConversionError (Output (b "Syntax Error")))
   ∧ log (call_pdftohtml (converter (run_exit 1 "Syntax Error")) None None initial).2 = [])
  ∧ log (call_pdftohtml (converter (run_chatty front_text)) None None initial).2
    = [LogPlain PdftohtmlLog; LogPlain (Raw (b "Syntax Warning: bad font"))].
Proof.
  split.
  - destruct (tool_output_is_raised_or_logged (converter (run_exit 1 "Syntax Error"))
                None None initial 1 eq_refl eq_refl) as [Hraised _].
    apply Hraised. discriminate.
  - destruct (tool_output_is_raised_or_logged (converter (run_chatty front_text))
                None None initial 0 eq_refl eq_refl) as (_ & Hlogged & _).
    apply Hlogged; [reflexivity|by vm_compute].
Defined.

Lemma reopened_prefixes_are_saved_unchanged_witness :
  Config.read_prefixes (Config.plugin_prefs ∅)
  = Some (Config.VList (Config.VStr <$> [u "977"; u "978"; u "979"]))
  ∧ Config.read_prefixes (Config.save_settings widget_defaults (Config.plugin_prefs ∅))
    = Some (Config.VList (Config.VStr <$> [u "977"; u "978"; u "979"])).
Proof.
  assert (Config.read_prefixes (Config.plugin_prefs ∅)
          = Some (Config.VList (Config.VStr <$> [u "977"; u "978"; u "979"]))) as Hread
    by (by vm_compute).
  split; [exact Hread|].
  apply (reopened_prefixes_are_saved_unchanged (Config.plugin_prefs ∅)
           (Config.plugin_prefs ∅) widget_defaults [u "977"; u "978"; u "979"] Hread).
  - discriminate.
  - repeat constructor.
  - repeat constructor.
  - by vm_compute.
Defined.

Lemma text_is_the_concatenation_of_the_element_texts_witness :
  (call_pdftohtml (converter (run_text front_text)) None None initial).1 = Return front_text
  ∧ (call_pdftohtml (converter (run_small 200)) None None initial).1 = Return [].
Proof.
  split.
  - destruct (text_is_the_concatenation_of_the_element_texts
                (converter (run_text front_text)) None None initial
                {| st_size := 4096; text_elements := Return [Some front_text; None] |}
                [Some front_text; None] eq_refl eq_refl eq_refl) as [Htext _];
      [by vm_compute|reflexivity|].
    rewrite Htext. by vm_compute.
  - destruct (text_is_the_concatenation_of_the_element_texts
                (converter (run_small 200)) None None initial
                {| st_size := 200; text_elements := Return [] |}
                [] eq_refl eq_refl eq_refl) as [_ Hempty];
      [by vm_compute|reflexivity|].
    apply Hempty. constructor.
Defined.

Lemma missing_prefix_setting_reads_as_default_witness :
  Config.init_isbn13_ledit_text (Config.plugin_prefs ∅) = Some (u "977,978,979").
Proof.
  apply (missing_prefix_setting_reads_as_default ∅). left. apply lookup_empty.
Defined.

Lemma saved_prefixes_shape_witness :
  Config.read_prefixes
    (Config.save_settings
       {| Config.showCombo_selected_key := u "none"; Config.isbn13_ledit_text := u "  ";
          Config.threshold_spin_value := 1; Config.batch_spin_value := 100 |}
       (Config.plugin_prefs ∅))
  = Some (Config.VList [Config.VStr []]).
Proof.
  destruct (saved_prefixes_shape
              {| Config.showCombo_selected_key := u "none"; Config.isbn13_ledit_text := u "  ";
                 Config.threshold_spin_value := 1; Config.batch_spin_value := 100 |}
              (Config.plugin_prefs ∅)) as (l & Hread & _ & _ & Hblank).
  rewrite Hread. by rewrite (Hblank eq_refl).
Defined.

Lemma save_settings_replaces_the_store_witness :
  ∃ c, Config.getitem (Config.save_settings widget_defaults prefs_legacy) Config.STORE_NAME
       = Some c
       ∧ c !! Config.KEY_VALID_ISBN13_PREFIX
         = Some (Config.VList [Config.VStr (u "977"); Config.VStr (u "978");
                               Config.VStr (u "979")])
       ∧ c !! Config.KEY_BATCH_SIZE = Some (Config.VInt 50)
       ∧ c !! u "legacy" = None
       ∧ Config.getitem (Config.save_settings widget_defaults prefs_legacy) (u "Other")
         = Some (<[u "kept" := Config.VInt 2]> ∅).
Proof.
  destruct (save_settings_replaces_the_store widget_defaults prefs_legacy)
    as (c & Hstore & _ & Hprefixes & _ & Hbatch & Hkeys & Hother).
  exists c. split; [exact Hstore|]. split; [exact Hprefixes|]. split; [exact Hbatch|].
  split.
  - destruct (c !! u "legacy") as [v|] eqn:Hlegacy; [|reflexivity].
    exfalso. specialize (Hkeys (u "legacy") (ex_intro _ v Hlegacy)).
    revert Hkeys. apply (bool_decide_eq_false_1 _). vm_compute. reflexivity.
  - rewrite Hother by (by vm_compute). vm_compute. reflexivity.
Defined.

Lemma every_selected_book_is_queued_or_failed_witness :
  ∃ d, Dialogs.do_book Dialogs.shelf 4 (Dialogs.init true [1; 2; 3; 4]) = Some (Dialogs.Done d)
       ∧ Dialogs.book_id <$> Dialogs.books_to_scan d = [1]
       ∧ Dialogs.failed_ids d = [(2, u "Two"); (3, []); (4, u "Four")]
       ∧ Dialogs.no_format_ids d = [(2, u "Two")].
Proof.
  destruct (every_selected_book_is_queued_or_failed Dialogs.shelf true [1; 2; 3; 4])
    as (d & Hrun & Hbooks & Hfailed & Hnone & _); [discriminate|].
  exists d. split; [exact Hrun|]. rewrite Hbooks, Hfailed, Hnone. by vm_compute.
Defined.

Lemma queue_is_called_once_or_the_warning_is_shown_witness :
  ∃ d, Dialogs.do_book Dialogs.shelf 3 (Dialogs.init true [2; 3; 4]) = Some (Dialogs.Done d)
       ∧ Dialogs.outward (Dialogs.effects d) = [Dialogs.Hide; Dialogs.WarningDialog].
Proof.
  destruct (queue_is_called_once_or_the_warning_is_shown Dialogs.shelf [2; 3; 4])
    as (d & Hrun & _ & Hout); [discriminate|].
  exists d. split; [exact Hrun|]. rewrite Hout. by vm_compute.
Defined.

Lemma do_queue_acts_once_witness :
  Dialogs.do_queue (Dialogs.init false [1]) = Dialogs.init false [1].
Proof.
  destruct (do_queue_acts_once (Dialogs.init false [1])) as (_ & Hnoop & _).
  by apply Hnoop.
Defined.

Lemma empty_selection_raises_index_error_witness :
  Dialogs.do_book Dialogs.shelf 1 (Dialogs.init true [])
  = Some (Dialogs.Raised Dialogs.IndexError).
Proof.
  apply (empty_selection_raises_index_error Dialogs.shelf true 1). discriminate.
Defined.
End MoreWitnesses.
